(** * Object3DPlugin: a shallow embedding of src/src/Object3DPlugin.cc

    The plugin is glue between a widget toolkit, an XML configuration
    element and a rendering engine.  The embedding keeps the three apart:

    - the XML element is an inductive tree with tinyxml2's accessors;
    - the rendering library, the stream extraction operators of the math
      library and the pure virtual methods of the plugin are interfaces
      (type classes), since their code lives outside this translation unit;
    - the widget side is a record of the member variables together with a
      list model of [QLayout]; the slots are functions that pass the state
      explicitly and return a [Result], a fault standing for the
      dereference of a null pointer. *)

From Stdlib Require Import String Ascii List Bool Arith Lia QArith.
Import ListNotations.
Close Scope Q_scope.
Local Open Scope string_scope.
Local Open Scope list_scope.

(** ** Results of fallible code *)

Inductive FaultKind : Type :=
| NullText        (* std::string built from the null GetText() *)
| NullEngine      (* this->engine-> with a null engine *)
| NullLayout      (* this->layout()-> with no layout installed *)
| NullLayoutItem. (* item-> with the null item of takeAt *)

Inductive Result (A : Type) : Type :=
| Ok (a : A)
| Fault (k : FaultKind)
| OutOfFuel.

Arguments Ok {A} a.
Arguments Fault {A} k.
Arguments OutOfFuel {A}.

Definition bind {A B : Type} (r : Result A) (f : A -> Result B) : Result B :=
  match r with
  | Ok a => f a
  | Fault k => Fault k
  | OutOfFuel => OutOfFuel
  end.

Declare Scope result_scope.
Delimit Scope result_scope with result.
Notation "x <- e ;; k" := (bind e (fun x => k))
  (at level 61, e at next level, right associativity) : result_scope.
Notation "' p <- e ;; k" := (bind e (fun x => let p := x in k))
  (at level 61, p pattern, e at next level, right associativity) : result_scope.
Local Open Scope result_scope.

(** A pointer that is dereferenced: null faults. *)
Definition deref {A : Type} (p : option A) (k : FaultKind) : Result A :=
  match p with
  | Some a => Ok a
  | None => Fault k
  end.

(** ** tinyxml2 elements *)

Inductive XMLNode : Type :=
| XMLText (text : string)
| XMLChild (elem : XMLElement)
with XMLElement : Type :=
| Element (name : string) (children : list XMLNode).

Definition ElementName (e : XMLElement) : string :=
  match e with Element n _ => n end.

Definition Children (e : XMLElement) : list XMLNode :=
  match e with Element _ c => c end.

(** First element named [name] in a run of sibling nodes: what both
    [FirstChildElement(name)] (on the children) and
    [NextSiblingElement(name)] (on the following siblings) search. *)
Fixpoint FirstElement (name : string) (siblings : list XMLNode)
  : option XMLElement :=
  match siblings with
  | [] => None
  | XMLText _ :: rest => FirstElement name rest
  | XMLChild e :: rest =>
      if ElementName e =? name then Some e else FirstElement name rest
  end.

Definition FirstChildElement (name : string) (e : XMLElement)
  : option XMLElement :=
  FirstElement name (Children e).

(** [GetText]: the value of the first child when that child is a text
    node, the null pointer otherwise. *)
Definition GetText (e : XMLElement) : option string :=
  match Children e with
  | XMLText t :: _ => Some t
  | _ => None
  end.

(** ** Poses and colours *)

(** The components are floating point numbers in the program; the model
    keeps the value of the literals as rationals. *)
Record Pose3d : Type := mkPose3d {
  pos_x : Q; pos_y : Q; pos_z : Q;
  rot_roll : Q; rot_pitch : Q; rot_yaw : Q
}.

Record Color : Type := mkColor {
  color_r : Q; color_g : Q; color_b : Q; color_a : Q
}.

Definition kDefaultPose : Pose3d := (mkPose3d 0 0 0 0 0 0)%Q.

Definition kDefaultColor : Color := (mkColor 0.7 0.7 0.7 1.0)%Q.

(** Holds configuration for an object. *)
Record ObjInfo : Type := mkObjInfo {
  pose : Pose3d;
  color : Color
}.

Definition defaultObjInfo : ObjInfo := mkObjInfo kDefaultPose kDefaultColor.

(** The stream extraction operators [>>] of the math library: from the
    contents of the stream and the current value of the variable to its
    new value. *)
Class MathStreams : Type := {
  read_Pose3d : string -> Pose3d -> Pose3d;
  read_Color : string -> Color -> Color
}.

(** ** The rendering library *)

Class Rendering : Type := {
  World : Type;                 (* engines, scenes and their objects *)
  RenderEngine : Type;          (* rendering::RenderEngine * (non null) *)
  Scene : Type;                 (* rendering::ScenePtr (non null) *)
  ObjectPtr : Type;             (* rendering::ObjectPtr *)
  ObjectPtr_eq_dec : forall a b : ObjectPtr, {a = b} + {a <> b};
  Name : ObjectPtr -> string;
  rendering_engine : World -> string -> option RenderEngine;
  SceneByName : World -> RenderEngine -> string -> option Scene
}.

(** ** Widgets *)

Class Gui : Type := {
  PropertyWidget : Type;
  QVariant : Type
}.

Inductive Slot : Type := SLOT_OnAdd | SLOT_OnRefresh | SLOT_OnDelete.

Record QPushButton : Type := mkButton {
  btn_text : string;
  btn_objectName : string;
  btn_toolTip : string;
  btn_objName : option string;   (* the dynamic property "objName" *)
  btn_clicked : Slot             (* slot connected to clicked() *)
}.

(** What a slot reads of [sender()]. *)
Record QObject : Type := mkQObject {
  objectName : string;
  property_objName : option string
}.

(** [property("objName").toString()]: an unset property converts to the
    empty string. *)
Definition objNameOf (sender : QObject) : string :=
  match property_objName sender with
  | Some s => s
  | None => EmptyString
  end.

Definition senderOf (b : QPushButton) : QObject :=
  mkQObject (btn_objectName b) (btn_objName b).

Section Widgets.
Context {G : Gui}.

Inductive Content : Type :=
| ContentProp (p : PropertyWidget)
| ContentButton (b : QPushButton).

Inductive Widget : Type :=
| ButtonsWidget (buttons : list QPushButton)
| CollapsibleWidget (title : string) (content : list Content)
| SpacerWidget
| QLabel (text : string).

(** [qobject_cast<CollapsibleWidget *>(w)] is not null. *)
Definition isCollapsible (w : Widget) : bool :=
  match w with
  | CollapsibleWidget _ _ => true
  | _ => false
  end.

(** A [QLayout] is the sequence of its items; every item here holds a
    widget. *)
Definition QLayout : Type := list Widget.

Definition count (l : QLayout) : nat := length l.

(** [takeAt(i)]: removes and returns item [i]; null when out of range. *)
Fixpoint takeAt (i : nat) (l : QLayout) {struct l}
  : option Widget * QLayout :=
  match l with
  | [] => (None, [])
  | w :: rest =>
      match i with
      | O => (Some w, rest)
      | S j => let (item, rest') := takeAt j rest in (item, w :: rest')
      end
  end.

Definition addWidget (w : Widget) (l : QLayout) : QLayout := l ++ [w].
End Widgets.

(** ** The plugin object *)

Section Plugin.
Context {R : Rendering} {G : Gui}.

(** Member variables of [Object3DPlugin] and of its [Plugin] base that
    the translation unit reads or writes. *)
Record Object3DPlugin : Type := mkPlugin {
  title : string;
  typeSingular : string;
  sceneName : string;
  engine : option RenderEngine;
  objs : list ObjectPtr;
  deleteLaterRequested : bool;    (* DeleteLaterRequested() *)
  layout : option QLayout;        (* this->layout() *)
  orphans : list Widget           (* taken out of the layout, not deleted *)
}.

Definition set_title (v : string) (p : Object3DPlugin) : Object3DPlugin :=
  mkPlugin v (typeSingular p) (sceneName p) (engine p) (objs p)
           (deleteLaterRequested p) (layout p) (orphans p).

Definition set_sceneName (v : string) (p : Object3DPlugin) : Object3DPlugin :=
  mkPlugin (title p) (typeSingular p) v (engine p) (objs p)
           (deleteLaterRequested p) (layout p) (orphans p).

Definition set_engine (v : option RenderEngine) (p : Object3DPlugin)
  : Object3DPlugin :=
  mkPlugin (title p) (typeSingular p) (sceneName p) v (objs p)
           (deleteLaterRequested p) (layout p) (orphans p).

Definition set_objs (v : list ObjectPtr) (p : Object3DPlugin)
  : Object3DPlugin :=
  mkPlugin (title p) (typeSingular p) (sceneName p) (engine p) v
           (deleteLaterRequested p) (layout p) (orphans p).

Definition set_layout (v : option QLayout) (p : Object3DPlugin)
  : Object3DPlugin :=
  mkPlugin (title p) (typeSingular p) (sceneName p) (engine p) (objs p)
           (deleteLaterRequested p) v (orphans p).

Definition set_orphans (v : list Widget) (p : Object3DPlugin)
  : Object3DPlugin :=
  mkPlugin (title p) (typeSingular p) (sceneName p) (engine p) (objs p)
           (deleteLaterRequested p) (layout p) v.

(** [QWidget::setLayout]: a widget that already has a layout manager
    keeps it. *)
Definition setLayout (l : QLayout) (p : Object3DPlugin) : Object3DPlugin :=
  match layout p with
  | Some _ => p
  | None => set_layout (Some l) p
  end.

(** Calls that leave the translation unit, and entries of the refresh
    slot, in the order they happen. *)
Inductive Call : Type :=
| CallAdd
| CallDelete (obj : ObjectPtr)
| CallChange (obj : ObjectPtr) (type : string) (value : QVariant)
| CallRefresh
| CallOnRefresh
| CallWarn (msg : string).

Record State : Type := mkState {
  self : Object3DPlugin;
  world : World;
  calls : list Call
}.

Definition with_self (f : Object3DPlugin -> Object3DPlugin) (st : State)
  : State :=
  mkState (f (self st)) (world st) (calls st).

Definition set_world (w : World) (st : State) : State :=
  mkState (self st) w (calls st).

Definition record (c : Call) (st : State) : State :=
  mkState (self st) (world st) (calls st ++ [c]).

(** What the plugins derived from the template read of the members:
    the engine and the name of the scene their objects live in. *)
Record Members : Type := mkMembers {
  m_engine : option RenderEngine;
  m_sceneName : string
}.

Definition members (p : Object3DPlugin) : Members :=
  mkMembers (engine p) (sceneName p).

(** The pure virtual methods, implemented by the plugins derived from
    the template.  They read the members above and act on the rendering
    world; [Refresh] is given by the [AppendObj] calls it makes. *)
Class Object3DHooks : Type := {
  Refresh : Members -> World -> list (ObjectPtr * list PropertyWidget);
  Add : Members -> World -> World;
  Delete : Members -> ObjectPtr -> World -> bool * World;
  Change : Members -> ObjectPtr -> string -> QVariant -> World -> World
}.

Context {H : Object3DHooks} {M : MathStreams}.

Definition dquote : string := String "034"%char EmptyString.

(** *** LoadConfig: the configuration block *)

(** Body of the loop over the [<insert>] elements. *)
Definition LoadConfig_insert (insertElem : XMLElement) : Result ObjInfo :=
  let objInfo := defaultObjInfo in
  objInfo <-
    match FirstChildElement "pose" insertElem with
    | Some elem =>
        poseStr <- deref (GetText elem) NullText ;;
        Ok (mkObjInfo (read_Pose3d poseStr (pose objInfo)) (color objInfo))
    | None => Ok objInfo
    end ;;
  objInfo <-
    match FirstChildElement "color" insertElem with
    | Some elem =>
        colorStr <- deref (GetText elem) NullText ;;
        Ok (mkObjInfo (pose objInfo) (read_Color colorStr (color objInfo)))
    | None => Ok objInfo
    end ;;
  Ok objInfo.

(** The loop itself.  [siblings] is what is left to search for the next
    [<insert>]: the children of the plugin element at first, the
    following siblings of the current [<insert>] afterwards. *)
Fixpoint LoadConfig_inserts (siblings : list XMLNode)
         (objInfos : list ObjInfo) : Result (list ObjInfo) :=
  match siblings with
  | [] => Ok objInfos
  | XMLText _ :: rest => LoadConfig_inserts rest objInfos
  | XMLChild e :: rest =>
      if ElementName e =? "insert" then
        objInfo <- LoadConfig_insert e ;;
        LoadConfig_inserts rest (objInfos ++ [objInfo])
      else LoadConfig_inserts rest objInfos
  end.

(** Lines 75-110: the engine name, the scene name and the objects to
    insert. *)
Definition LoadConfig_configuration (_pluginElem : option XMLElement)
           (p : Object3DPlugin)
  : Result (string * list ObjInfo * Object3DPlugin) :=
  let engineName := "ogre" in
  let objInfos := [] in
  match _pluginElem with
  | Some pluginElem =>
      engineName <-
        match FirstChildElement "engine" pluginElem with
        | Some elem => deref (GetText elem) NullText
        | None => Ok engineName
        end ;;
      p <-
        match FirstChildElement "scene" pluginElem with
        | Some elem =>
            text <- deref (GetText elem) NullText ;;
            Ok (set_sceneName text p)
        | None => Ok p
        end ;;
      objInfos <- LoadConfig_inserts (Children pluginElem) objInfos ;;
      Ok (engineName, objInfos, p)
  | None => Ok (engineName, objInfos, p)
  end.

(** The loop over [objInfos] once the scene is found: every statement
    of its body is commented out in the source. *)
Definition LoadConfig_initialObjs (objInfos : list ObjInfo) (w : World)
  : World :=
  fold_left (fun (w : World) (o : ObjInfo) => w) objInfos w.

(** *** AppendObj *)

Definition deleteButtonFor (typeSingular : string) (_obj : ObjectPtr)
  : QPushButton :=
  let objName := Name _obj in
  mkButton ("Delete " ++ typeSingular)
           "deleteButton"
           ("Delete " ++ typeSingular ++ " " ++ objName)
           (Some objName)
           SLOT_OnDelete.

Definition collapsibleFor (typeSingular : string) (_obj : ObjectPtr)
           (_props : list PropertyWidget) : Widget :=
  CollapsibleWidget (Name _obj)
    (map ContentProp _props ++
     [ContentButton (deleteButtonFor typeSingular _obj)]).

Definition AppendObj (_obj : ObjectPtr) (_props : list PropertyWidget)
           (st : State) : Result State :=
  let st := with_self (fun p => set_objs (objs p ++ [_obj]) p) st in
  let collapsible := collapsibleFor (typeSingular (self st)) _obj _props in
  l <- deref (layout (self st)) NullLayout ;;
  Ok (with_self (set_layout (Some (addWidget collapsible l))) st).

(** The [AppendObj] calls of one [Refresh()]. *)
Fixpoint AppendObjs (appended : list (ObjectPtr * list PropertyWidget))
         (st : State) : Result State :=
  match appended with
  | [] => Ok st
  | (obj, props) :: rest =>
      st <- AppendObj obj props st ;;
      AppendObjs rest st
  end.

(** *** OnRefresh *)

(** The loop that clears the previous layout.  Each round is one test
    of [count() != 1] and, when it holds, one [takeAt(1)]. *)
Fixpoint OnRefresh_clear (fuel : nat) (mainLayout : QLayout)
         (orph : list Widget) : Result (QLayout * list Widget) :=
  match fuel with
  | O => OutOfFuel
  | S fuel' =>
      if negb (count mainLayout =? 1)%nat then
        let (item, mainLayout') := takeAt 1 mainLayout in
        w <- deref item NullLayoutItem ;;
        if isCollapsible w
        then OnRefresh_clear fuel' mainLayout' orph
        else OnRefresh_clear fuel' mainLayout' (orph ++ [w])
      else Ok (mainLayout, orph)
  end.

Definition addButtonFor (typeSingular : string) : QPushButton :=
  mkButton ("New " ++ typeSingular)
           ("addButton" ++ typeSingular)
           ("Add a new " ++ typeSingular ++ " with default values")
           None
           SLOT_OnAdd.

Definition refreshButtonFor (typeSingular : string) : QPushButton :=
  mkButton "Refresh"
           ("refreshButton" ++ typeSingular)
           "Refresh the list of objs"
           None
           SLOT_OnRefresh.

Definition buttonsWidgetFor (typeSingular : string) : Widget :=
  ButtonsWidget [addButtonFor typeSingular; refreshButtonFor typeSingular].

Definition destroyedMsg (sceneName : string) : string :=
  "Scene " ++ dquote ++ sceneName ++ dquote ++ " has been destroyed." ++
  String "010"%char EmptyString ++
  "Create a new scene and then open a new plugin.".

Definition OnRefresh (st : State) : Result State :=
  let st := record CallOnRefresh st in
  st <-
    match layout (self st) with
    | Some mainLayout =>
        (* Clear previous layout *)
        '(mainLayout', orph) <-
          OnRefresh_clear (S (count mainLayout)) mainLayout
                          (orphans (self st)) ;;
        Ok (with_self (fun p => set_orphans orph
                                  (set_layout (Some mainLayout') p)) st)
    | None =>
        (* Creating layout for the first time *)
        Ok (with_self
              (fun p => setLayout [buttonsWidgetFor (typeSingular p)] p) st)
    end ;;
  e <- deref (engine (self st)) NullEngine ;;
  match SceneByName (world st) e (sceneName (self st)) with
  | None =>
      (* Scene has been destroyed *)
      mainLayout <- deref (layout (self st)) NullLayout ;;
      let (_, mainLayout) := takeAt 0 mainLayout in
      let msg := QLabel (destroyedMsg (sceneName (self st))) in
      Ok (with_self (set_layout (Some (addWidget msg mainLayout))) st)
  | Some _ =>
      let st := with_self (set_objs []) st in
      let st := record CallRefresh st in
      st <- AppendObjs (Refresh (members (self st)) (world st)) st ;;
      mainLayout <- deref (layout (self st)) NullLayout ;;
      Ok (with_self (set_layout (Some (addWidget SpacerWidget mainLayout)))
                    st)
  end.

(** *** LoadConfig *)

Definition engineError (engineName : string) : string :=
  "Engine " ++ dquote ++ engineName ++ dquote ++
  " not supported, plugin won't work.".

Definition sceneError (name : string) : string :=
  "Scene " ++ dquote ++ name ++ dquote ++ " not found, plugin won't work.".

Definition LoadConfig (_pluginElem : option XMLElement) (st : State)
  : Result State :=
  let st :=
    if title (self st) =? EmptyString
    then with_self (fun p => set_title ("3D " ++ typeSingular p) p) st
    else st in
  (* Configuration *)
  '(engineName, objInfos, p) <-
    LoadConfig_configuration _pluginElem (self st) ;;
  let st := with_self (fun _ => p) st in
  (* Keep error to show the user *)
  let error := EmptyString in
  (* Render engine *)
  let st := with_self (set_engine (rendering_engine (world st) engineName))
                      st in
  let '(error, st) :=
    match engine (self st) with
    | None =>
        let error := engineError engineName in
        (error, record (CallWarn error) st)
    | Some e =>
        match SceneByName (world st) e (sceneName (self st)) with
        | None =>
            let error := sceneError (sceneName (self st)) in
            (error, record (CallWarn error) st)
        | Some scene =>
            (error, set_world (LoadConfig_initialObjs objInfos (world st))
                              st)
        end
    end in
  (* Don't waste time loading widgets if this will be deleted anyway *)
  if deleteLaterRequested (self st) then Ok st
  else if negb (error =? EmptyString) then
    Ok (with_self (setLayout [QLabel error]) st)
  else OnRefresh st.

(** *** The other slots *)

Fixpoint OnChange_loop (objName type : string) (_value : QVariant)
         (rest : list ObjectPtr) (st : State) : State :=
  match rest with
  | [] => st
  | obj :: rest' =>
      if negb (Name obj =? objName)
      then OnChange_loop objName type _value rest' st
      else
        (* Change, then break *)
        record (CallChange obj type _value)
               (set_world (Change (members (self st)) obj type _value
                                  (world st)) st)
  end.

Definition OnChange (sender : QObject) (_value : QVariant) (st : State)
  : State :=
  let objName := objNameOf sender in
  let type := objectName sender in
  OnChange_loop objName type _value (objs (self st)) st.

(** The range-for of [OnDelete] walks [objs]; [objs] is only written
    right before the [break], so the walk is over the list as it was on
    entry. *)
Fixpoint OnDelete_loop (objName : string) (rest : list ObjectPtr)
         (st : State) : Result State :=
  match rest with
  | [] => Ok st
  | obj :: rest' =>
      if negb (Name obj =? objName)
      then OnDelete_loop objName rest' st
      else
        let (deleted, w) := Delete (members (self st)) obj (world st) in
        let st := record (CallDelete obj) (set_world w st) in
        if negb deleted
        then OnDelete_loop objName rest' st
        else
          let st := with_self
                      (fun p => set_objs
                                  (remove ObjectPtr_eq_dec obj (objs p)) p)
                      st in
          OnRefresh st
  end.

Definition OnDelete (sender : QObject) (st : State) : Result State :=
  let objName := objNameOf sender in
  OnDelete_loop objName (objs (self st)) st.

Definition OnAdd (st : State) : Result State :=
  let st := record CallAdd
                   (set_world (Add (members (self st)) (world st)) st) in
  OnRefresh st.

(** The [clicked()] connections made by [OnRefresh] and [AppendObj]. *)
Definition click (b : QPushButton) (st : State) : Result State :=
  match btn_clicked b with
  | SLOT_OnAdd => OnAdd st
  | SLOT_OnRefresh => OnRefresh st
  | SLOT_OnDelete => OnDelete (senderOf b) st
  end.
End Plugin.


(** ** Reading a configuration element: what is expected *)

Definition textOf (e : XMLElement) : string :=
  match GetText e with
  | Some t => t
  | None => EmptyString
  end.

(** The element, when there is one, starts with a text node. *)
Definition hasText (o : option XMLElement) : bool :=
  match o with
  | Some e => match GetText e with Some _ => true | None => false end
  | None => true
  end.

(** The [<insert>] children among [siblings], in document order. *)
Fixpoint insertElements (siblings : list XMLNode) : list XMLElement :=
  match siblings with
  | [] => []
  | XMLText _ :: rest => insertElements rest
  | XMLChild e :: rest =>
      if ElementName e =? "insert"
      then e :: insertElements rest
      else insertElements rest
  end.

Definition wellFormedInsert (insertElem : XMLElement) : bool :=
  hasText (FirstChildElement "pose" insertElem) &&
  hasText (FirstChildElement "color" insertElem).

(** Every element whose text [LoadConfig] reads has a text. *)
Definition wellFormedConfig (_pluginElem : option XMLElement) : bool :=
  match _pluginElem with
  | None => true
  | Some e =>
      hasText (FirstChildElement "engine" e) &&
      hasText (FirstChildElement "scene" e) &&
      forallb wellFormedInsert (insertElements (Children e))
  end.

(** Text of the first [<engine>] child, "ogre" without one. *)
Definition expectedEngineName (_pluginElem : option XMLElement) : string :=
  match _pluginElem with
  | None => "ogre"
  | Some e =>
      match FirstChildElement "engine" e with
      | Some c => textOf c
      | None => "ogre"
      end
  end.

(** Text of the first [<scene>] child, the current name without one. *)
Definition expectedSceneName (_pluginElem : option XMLElement)
           (current : string) : string :=
  match _pluginElem with
  | None => current
  | Some e =>
      match FirstChildElement "scene" e with
      | Some c => textOf c
      | None => current
      end
  end.

(** Pose and colour of one [<insert>]: parsed from the first [<pose>] and
    [<color>] children, the defaults without them. *)
Definition expectedObjInfo {M : MathStreams} (insertElem : XMLElement)
  : ObjInfo :=
  mkObjInfo
    match FirstChildElement "pose" insertElem with
    | Some c => read_Pose3d (textOf c) kDefaultPose
    | None => kDefaultPose
    end
    match FirstChildElement "color" insertElem with
    | Some c => read_Color (textOf c) kDefaultColor
    | None => kDefaultColor
    end.

Definition expectedObjInfos {M : MathStreams}
           (_pluginElem : option XMLElement) : list ObjInfo :=
  match _pluginElem with
  | None => []
  | Some e => map expectedObjInfo (insertElements (Children e))
  end.


(** ** Expected outcome of a refresh *)

Section Expected.
Context {R : Rendering} {G : Gui} {H : Object3DHooks}.

(** The item at index 0 after the first block of [OnRefresh]: the first
    item of the layout there was, the new buttons widget when there was
    no layout.  A layout without any item has none. *)
Definition firstItem (p : Object3DPlugin) : option Widget :=
  match layout p with
  | None => Some (buttonsWidgetFor (typeSingular p))
  | Some [] => None
  | Some (w :: _) => Some w
  end.

(** Items that the clearing loop takes and does not delete. *)
Definition notDeleted (taken : list Widget) : list Widget :=
  filter (fun w => negb (isCollapsible w)) taken.

Definition orphansAfterClear (p : Object3DPlugin) : list Widget :=
  match layout p with
  | Some (_ :: rest) => orphans p ++ notDeleted rest
  | _ => orphans p
  end.

Definition rowFor (typeSingular : string)
           (a : ObjectPtr * list PropertyWidget) : Widget :=
  collapsibleFor typeSingular (fst a) (snd a).

(** The plugin after a refresh that found the scene: [first] at index 0,
    one row per appended object, the spacer. *)
Definition refreshedPlugin (p : Object3DPlugin) (first : Widget)
           (appended : list (ObjectPtr * list PropertyWidget))
  : Object3DPlugin :=
  mkPlugin (title p) (typeSingular p) (sceneName p) (engine p)
           (map fst appended)
           (deleteLaterRequested p)
           (Some (first :: map (rowFor (typeSingular p)) appended
                        ++ [SpacerWidget]))
           (orphansAfterClear p).

Definition refreshed (st : State) (first : Widget) : State :=
  mkState (refreshedPlugin (self st) first
             (Refresh (members (self st)) (world st)))
          (world st)
          (calls st ++ [CallOnRefresh; CallRefresh]).

(** The state after a refresh that found the scene destroyed: the
    message alone in the layout, the objects as they were. *)
Definition destroyed (st : State) : State :=
  let p := self st in
  mkState (mkPlugin (title p) (typeSingular p) (sceneName p) (engine p)
                    (objs p) (deleteLaterRequested p)
                    (Some [QLabel (destroyedMsg (sceneName p))])
                    (orphansAfterClear p))
          (world st)
          (calls st ++ [CallOnRefresh]).

(** The title once [LoadConfig] has filled an empty one in. *)
Definition expectedTitle (p : Object3DPlugin) : string :=
  if title p =? EmptyString then "3D " ++ typeSingular p else title p.

(** The members once [LoadConfig] has read the configuration and looked
    the engine up. *)
Definition configured (_pluginElem : option XMLElement) (st : State)
  : Object3DPlugin :=
  let p := self st in
  mkPlugin (expectedTitle p) (typeSingular p)
           (expectedSceneName _pluginElem (sceneName p))
           (rendering_engine (world st) (expectedEngineName _pluginElem))
           (objs p) (deleteLaterRequested p) (layout p) (orphans p).

(** [Delete] answers false for every object of [rest] named [objName],
    asked in turn from the world [w]. *)
Fixpoint deleteRefused (m : Members) (objName : string)
         (rest : list ObjectPtr) (w : World) : bool :=
  match rest with
  | [] => true
  | obj :: rest' =>
      if Name obj =? objName
      then negb (fst (Delete m obj w)) &&
           deleteRefused m objName rest' (snd (Delete m obj w))
      else deleteRefused m objName rest' w
  end.

(** World and calls after those refusals. *)
Fixpoint afterRefusals (m : Members) (objName : string)
         (rest : list ObjectPtr) (w : World) : World * list Call :=
  match rest with
  | [] => (w, [])
  | obj :: rest' =>
      if Name obj =? objName
      then let (w', cs) :=
             afterRefusals m objName rest' (snd (Delete m obj w)) in
           (w', CallDelete obj :: cs)
      else afterRefusals m objName rest' w
  end.

Definition nameIs (objName : string) (obj : ObjectPtr) : bool :=
  Name obj =? objName.
End Expected.

(** ** Signals delivered to the slots *)

Section Sessions.
Context {R : Rendering} {G : Gui} {H : Object3DHooks}.

(** What reaches the plugin once it is loaded: a click on one of its
    buttons, or the change of a value in a property widget. *)
Inductive Signal : Type :=
| Clicked (b : QPushButton)
| ValueChanged (sender : QObject) (value : QVariant).

Definition deliver (s : Signal) (st : State) : Result State :=
  match s with
  | Clicked b => click b st
  | ValueChanged sender value => Ok (OnChange sender value st)
  end.

Fixpoint deliverAll (signals : list Signal) (st : State) : Result State :=
  match signals with
  | [] => Ok st
  | s :: rest =>
      st <- deliver s st ;;
      deliverAll rest st
  end.

(** The engine is set, and the layout, if there is one, has an item. *)
Definition canRefresh (p : Object3DPlugin) : bool :=
  match engine p, layout p with
  | None, _ => false
  | Some _, Some [] => false
  | Some _, _ => true
  end.

(** The members that the configuration sets are the same in [p] and
    [p']. *)
Definition sameConfiguration (p p' : Object3DPlugin) : Prop :=
  title p' = title p /\
  typeSingular p' = typeSingular p /\
  sceneName p' = sceneName p /\
  engine p' = engine p /\
  deleteLaterRequested p' = deleteLaterRequested p.

(** Titles of the collapsible rows of a layout, in order. *)
Fixpoint rowTitles (l : QLayout) : list string :=
  match l with
  | [] => []
  | CollapsibleWidget t _ :: rest => t :: rowTitles rest
  | _ :: rest => rowTitles rest
  end.
End Sessions.

(** ** A plugin for grids, to run the slots on *)

Module Example.

(** One engine, "ogre", with one scene, "scene", that may have been
    destroyed; the visuals of the scene; the property changes applied. *)
Record GridWorld : Type := mkGridWorld {
  sceneAlive : bool;
  visuals : list nat;
  changed : list (nat * string * nat)
}.

Definition gridName (o : nat) : string :=
  match o with
  | 1 => "grid1"
  | 2 => "grid2"
  | 3 => "grid2"
  | _ => "grid"
  end.

Definition rendering : Rendering := {|
  World := GridWorld;
  RenderEngine := unit;
  Scene := unit;
  ObjectPtr := nat;
  ObjectPtr_eq_dec := Nat.eq_dec;
  Name := gridName;
  rendering_engine := fun _ name => if name =? "ogre" then Some tt else None;
  SceneByName := fun w _ name =>
    if (name =? "scene") && sceneAlive w then Some tt else None
|}.

Definition gui : Gui := {|
  PropertyWidget := string;
  QVariant := nat
|}.

(** Visual 2 is locked: its deletion is refused. *)
Definition gridRefresh (w : GridWorld) : list (nat * list string) :=
  map (fun o => (o, ["pose"; "color"])) (visuals w).

Definition gridAdd (w : GridWorld) : GridWorld :=
  mkGridWorld (sceneAlive w) (visuals w ++ [S (list_max (visuals w))])
              (changed w).

Definition gridDelete (o : nat) (w : GridWorld) : bool * GridWorld :=
  if (o =? 2)%nat then (false, w)
  else (true, mkGridWorld (sceneAlive w)
                          (remove Nat.eq_dec o (visuals w)) (changed w)).

Definition gridChange (o : nat) (type : string) (v : nat) (w : GridWorld)
  : GridWorld :=
  mkGridWorld (sceneAlive w) (visuals w) (changed w ++ [(o, type, v)]).

Definition hooks : @Object3DHooks rendering gui :=
  @Build_Object3DHooks rendering gui
    (fun _ => gridRefresh)
    (fun _ => gridAdd)
    (fun _ => gridDelete)
    (fun _ => gridChange).

Definition math : MathStreams := {|
  read_Pose3d := fun s cur =>
    if s =? "1 2 3 0 0 0" then (mkPose3d 1 2 3 0 0 0)%Q else cur;
  read_Color := fun s cur =>
    if s =? "1 0 0 1" then (mkColor 1 0 0 1)%Q else cur
|}.

Definition newPlugin (deleteLater : bool) : @Object3DPlugin rendering gui :=
  @mkPlugin rendering gui EmptyString "grid" "scene" None [] deleteLater
            None [].

Definition start (deleteLater : bool) (w : GridWorld)
  : @State rendering gui :=
  @mkState rendering gui (newPlugin deleteLater) w [].

Definition text (name value : string) : XMLNode :=
  XMLChild (Element name [XMLText value]).

(** <plugin><engine>ogre</engine><scene>scene</scene>
      <insert><pose>1 2 3 0 0 0</pose></insert>
      <insert><color>1 0 0 1</color></insert></plugin> *)
Definition config : XMLElement :=
  Element "plugin"
    [text "engine" "ogre"; text "scene" "scene";
     XMLChild (Element "insert" [text "pose" "1 2 3 0 0 0"]);
     XMLChild (Element "insert" [text "color" "1 0 0 1"])].

(** The scene holds three visuals. *)
Definition world0 : GridWorld := mkGridWorld true [1; 2; 3] [].

(** The scene holds none. *)
Definition emptyWorld : GridWorld := mkGridWorld true [] [].

(** The scene has been destroyed. *)
Definition deadWorld : GridWorld := mkGridWorld false [1] [].

(** The plugin once loaded in [world0]. *)
Definition loadedPlugin : @Object3DPlugin rendering gui :=
  @mkPlugin rendering gui "3D grid" "grid" "scene" (Some tt) [1; 2; 3] false
    (Some (buttonsWidgetFor "grid"
             :: map (@rowFor rendering gui "grid") (gridRefresh world0)
             ++ [SpacerWidget]))
    [].

Definition loaded : @State rendering gui :=
  @mkState rendering gui loadedPlugin world0 [CallOnRefresh; CallRefresh].

(** A plugin whose layout holds no item. *)
Definition emptied : @State rendering gui :=
  @mkState rendering gui
    (@mkPlugin rendering gui "3D grid" "grid" "scene" (Some tt) [] false
               (Some []) [])
    world0 [].

(** <plugin><engine>gazebo</engine></plugin> *)
Definition otherEngine : XMLElement :=
  Element "plugin" [text "engine" "gazebo"].

(** <plugin><scene>other</scene></plugin> *)
Definition otherScene : XMLElement :=
  Element "plugin" [text "scene" "other"].

(** <plugin><engine/></plugin> *)
Definition noText : XMLElement :=
  Element "plugin" [XMLChild (Element "engine" [])].

(** The loaded plugin once the scene has been destroyed. *)
Definition gone : @State rendering gui :=
  @mkState rendering gui loadedPlugin deadWorld [].

(** Visuals 1 and 3 only: no two names are the same. *)
Definition twoGrids : @State rendering gui :=
  @mkState rendering gui (@set_objs rendering gui [1; 3] loadedPlugin) world0 [].

(** Visual 3 listed before visual 2: both are named grid2. *)
Definition swapped : @State rendering gui :=
  @mkState rendering gui (@set_objs rendering gui [3; 2] loadedPlugin) world0 [].

(** Add, delete the second grid2, change a pose, refresh. *)
Definition session : list (@Signal gui) :=
  [@Clicked gui (addButtonFor "grid");
   @Clicked gui (@deleteButtonFor rendering "grid" 3);
   @ValueChanged gui (mkQObject "pose" (Some "grid1")) 5;
   @Clicked gui (refreshButtonFor "grid")].

Definition afterSession : @State rendering gui :=
  match @deliverAll rendering gui hooks session loaded with
  | Ok st => st
  | _ => loaded
  end.

(** The scene of [world0] has been destroyed, its visuals are still in
    the engine. *)
Definition destroyedWorld : GridWorld := mkGridWorld false [1; 2; 3] [].

(** The loaded plugin once that has happened. *)
Definition sceneLost : @State rendering gui :=
  @mkState rendering gui loadedPlugin destroyedWorld [].

(** A derived plugin whose [Delete] answers true and leaves the scene as
    it is. *)
Definition lazyHooks : @Object3DHooks rendering gui :=
  @Build_Object3DHooks rendering gui
    (fun _ => gridRefresh)
    (fun _ => gridAdd)
    (fun _ (_ : nat) (w : GridWorld) => (true, w))
    (fun _ => gridChange).

(** <plugin><engine>gazebo</engine><scene>other</scene></plugin> *)
Definition bothNames : XMLElement :=
  Element "plugin" [text "engine" "gazebo"; text "scene" "other"].

(** <plugin><insert><pose/></insert></plugin> *)
Definition poseWithoutText : XMLElement :=
  Element "plugin"
    [XMLChild (Element "insert" [XMLChild (Element "pose" [])])].

(** <plugin><engine>ogre</engine><scene>scene</scene>
      <insert><color/></insert></plugin> *)
Definition colorWithoutText : XMLElement :=
  Element "plugin"
    [text "engine" "ogre"; text "scene" "scene";
     XMLChild (Element "insert" [XMLChild (Element "color" [])])].

End Example.

(** ** Properties *)

Section Properties.
Context {R : Rendering} {G : Gui} {H : Object3DHooks} {M : MathStreams}.

Implicit Types (st : State) (p : Object3DPlugin) (l : QLayout).

(** *** The layout model *)

Lemma takeAt_1_cons (a b : Widget) (l : QLayout) :
  takeAt 1 (a :: b :: l) = (Some b, a :: l).
Proof. reflexivity. Qed.

Lemma takeAt_1_short (l : QLayout) :
  (length l <= 1)%nat -> fst (takeAt 1 l) = None.
Proof.
  destruct l as [|a [|b l]]; simpl; intros Hlen; try reflexivity; lia.
Qed.

Lemma takeAt_length (i : nat) (l : QLayout) (w : Widget) (l' : QLayout) :
  takeAt i l = (Some w, l') -> length l = S (length l').
Proof.
  revert i l'. induction l as [|a l IH]; intros i l' Ht; simpl in Ht.
  - discriminate.
  - destruct i as [|j].
    + inversion Ht; subst. reflexivity.
    + destruct (takeAt j l) as [item rest] eqn:E.
      inversion Ht; subst. simpl. f_equal. eapply IH. eassumption.
Qed.

(** *** The clearing loop *)

Lemma OnRefresh_clear_enough_fuel (rest : list Widget) :
  forall (first : Widget) (orph : list Widget) (fuel : nat),
    (length rest < fuel)%nat ->
    OnRefresh_clear fuel (first :: rest) orph
    = Ok ([first], orph ++ notDeleted rest).
Proof.
  induction rest as [|b rest IH]; intros first orph fuel Hfuel.
  - destruct fuel as [|fuel]; [inversion Hfuel|].
    simpl. now rewrite app_nil_r.
  - destruct fuel as [|fuel]; [inversion Hfuel|].
    simpl in Hfuel. apply Nat.succ_lt_mono in Hfuel.
    cbn [OnRefresh_clear count length Nat.eqb negb].
    rewrite takeAt_1_cons. cbn [deref bind].
    unfold notDeleted. cbn [filter]. fold (notDeleted rest).
    destruct (isCollapsible b); cbn [negb].
    + now apply IH.
    + rewrite IH by assumption. now rewrite <- app_assoc.
Qed.

Lemma OnRefresh_clear_empty (orph : list Widget) (fuel : nat) :
  (0 < fuel)%nat ->
  OnRefresh_clear fuel [] orph = Fault NullLayoutItem.
Proof.
  destruct fuel as [|fuel]; [intros Hf; inversion Hf | reflexivity].
Qed.

(** *** AppendObj *)

Lemma AppendObjs_with_layout
      (appended : list (ObjectPtr * list PropertyWidget)) :
  forall st l,
    layout (self st) = Some l ->
    AppendObjs appended st
    = Ok (with_self
            (fun p =>
               set_layout
                 (Some (l ++ map (rowFor (typeSingular p)) appended))
                 (set_objs (objs p ++ map fst appended) p))
            st).
Proof.
  induction appended as [|[obj props] appended IH]; intros st l Hl.
  - destruct st as [p w cs]; destruct p; simpl in *; subst.
    unfold with_self, set_layout, set_objs; simpl.
    now rewrite !app_nil_r.
  - cbn [AppendObjs]. unfold AppendObj.
    destruct st as [p w cs]; destruct p; simpl in *; subst.
    cbn [deref bind].
    erewrite IH by reflexivity.
    unfold with_self, set_layout, set_objs, addWidget, rowFor; simpl.
    now rewrite <- !app_assoc.
Qed.

(** *** OnRefresh, case by case *)

Lemma OnRefresh_cases st :
  OnRefresh st
  = match firstItem (self st) with
    | None => Fault NullLayoutItem
    | Some first =>
        match engine (self st) with
        | None => Fault NullEngine
        | Some e =>
            match SceneByName (world st) e (sceneName (self st)) with
            | Some _ => Ok (refreshed st first)
            | None => Ok (destroyed st)
            end
        end
    end.
Proof.
  destruct st as [p w cs]; destruct p as [t ts sn en ob dl ly orp].
  unfold firstItem, refreshed, refreshedPlugin, destroyed, orphansAfterClear,
    members.
  cbn [self world calls engine sceneName layout typeSingular orphans title
       deleteLaterRequested objs].
  unfold OnRefresh, record.
  cbn [self world calls layout orphans].
  destruct ly as [[|a rest]|].
  - reflexivity.
  - rewrite OnRefresh_clear_enough_fuel by (unfold count; simpl; lia).
    cbn [bind with_self self world calls set_layout set_orphans engine
         sceneName deref title typeSingular objs deleteLaterRequested
         layout orphans set_objs].
    destruct en as [e|]; [|reflexivity]. cbn [deref bind].
    destruct (SceneByName w e sn) as [sc|]; [|reflexivity].
    erewrite AppendObjs_with_layout by reflexivity.
    unfold addWidget; simpl.
    now rewrite <- !app_assoc.
  - cbn [bind with_self self world calls set_layout set_orphans engine
         sceneName deref title typeSingular objs deleteLaterRequested
         layout orphans set_objs setLayout].
    destruct en as [e|]; [|reflexivity]. cbn [deref bind].
    destruct (SceneByName w e sn) as [sc|]; [|reflexivity].
    erewrite AppendObjs_with_layout by reflexivity.
    unfold addWidget; simpl.
    now rewrite <- !app_assoc.
Qed.

Lemma OnRefresh_alive st (e : RenderEngine) (sc : Scene) (first : Widget) :
  engine (self st) = Some e ->
  SceneByName (world st) e (sceneName (self st)) = Some sc ->
  firstItem (self st) = Some first ->
  OnRefresh st = Ok (refreshed st first).
Proof.
  intros He Hsc Hfirst.
  now rewrite OnRefresh_cases, Hfirst, He, Hsc.
Qed.

(** A refresh writes neither the world nor the configuration members. *)
Lemma OnRefresh_frame st st' :
  OnRefresh st = Ok st' ->
  world st' = world st /\
  title (self st') = title (self st) /\
  typeSingular (self st') = typeSingular (self st) /\
  sceneName (self st') = sceneName (self st) /\
  engine (self st') = engine (self st) /\
  deleteLaterRequested (self st') = deleteLaterRequested (self st).
Proof.
  rewrite OnRefresh_cases.
  destruct (firstItem (self st)) as [first|]; [|discriminate].
  destruct (engine (self st)) as [e|] eqn:He; [|discriminate].
  destruct (SceneByName (world st) e (sceneName (self st)));
    intros [= <-]; cbn; rewrite ?He; tauto.
Qed.

Lemma OnRefresh_clear_short_fuel (rest : list Widget) :
  forall (first : Widget) (orph : list Widget) (fuel : nat),
    (fuel <= length rest)%nat ->
    OnRefresh_clear fuel (first :: rest) orph = OutOfFuel.
Proof.
  induction rest as [|b rest IH]; intros first orph fuel Hfuel.
  - apply Nat.le_0_r in Hfuel. now subst fuel.
  - destruct fuel as [|fuel]; [reflexivity|].
    apply le_S_n in Hfuel.
    cbn [OnRefresh_clear count length Nat.eqb negb].
    rewrite takeAt_1_cons. cbn [deref bind].
    destruct (isCollapsible b); now apply IH.
Qed.

Lemma OnRefresh_empty_layout st :
  layout (self st) = Some [] -> OnRefresh st = Fault NullLayoutItem.
Proof.
  destruct st as [p w cs]; destruct p; cbn [self layout].
  intros ->. reflexivity.
Qed.

(** C10.  The loop that clears the layout.  On a layout with at least one
    item it stops after one [takeAt(1)] per item beyond the first, leaves
    exactly the item of index 0 and meets no null item: any number of
    rounds above the number of those items gives the result, and none
    below does.  On a layout without items the first [takeAt(1)] returns
    the null item, which is dereferenced; this is what [OnRefresh] does
    on such a layout. *)
Theorem OnRefresh_clear_loop :
  (forall (first : Widget) (rest orph : list Widget) (fuel : nat),
      (length rest < fuel)%nat ->
      OnRefresh_clear fuel (first :: rest) orph
      = Ok ([first], orph ++ notDeleted rest)) /\
  (forall (first : Widget) (rest orph : list Widget) (fuel : nat),
      (fuel <= length rest)%nat ->
      OnRefresh_clear fuel (first :: rest) orph = OutOfFuel) /\
  (forall (first : Widget) (rest orph : list Widget),
      OnRefresh_clear (S (count (first :: rest))) (first :: rest) orph
      = Ok ([first], orph ++ notDeleted rest)) /\
  (forall (orph : list Widget) (fuel : nat),
      (0 < fuel)%nat ->
      fst (takeAt 1 (@nil Widget)) = None /\
      OnRefresh_clear fuel [] orph = Fault NullLayoutItem) /\
  (forall st,
      layout (self st) = Some [] -> OnRefresh st = Fault NullLayoutItem).
Proof.
  repeat split.
  - intros; now apply OnRefresh_clear_enough_fuel.
  - intros; now apply OnRefresh_clear_short_fuel.
  - intros; apply OnRefresh_clear_enough_fuel. unfold count; simpl; lia.
  - now apply OnRefresh_clear_empty.
  - apply OnRefresh_empty_layout.
Qed.

(** C9.  A refresh that finds the scene: with [first] the item of index 0
    (the buttons widget, kept from the layout there was or just created),
    the objects are exactly those that [Refresh] appended, in order, and
    the layout is [first], then one collapsible row per object holding
    its property widgets and its delete button, then the spacer.  No row
    of the layout there was is left. *)
Theorem OnRefresh_rebuilds_rows st (e : RenderEngine) (sc : Scene)
        (first : Widget) :
  engine (self st) = Some e ->
  SceneByName (world st) e (sceneName (self st)) = Some sc ->
  firstItem (self st) = Some first ->
  exists st',
    OnRefresh st = Ok st' /\
    let appended := Refresh (members (self st)) (world st) in
    let ts := typeSingular (self st) in
    objs (self st') = map fst appended /\
    layout (self st')
    = Some (first
              :: map (fun a =>
                        CollapsibleWidget (Name (fst a))
                          (map ContentProp (snd a) ++
                           [ContentButton (deleteButtonFor ts (fst a))]))
                     appended
              ++ [SpacerWidget]) /\
    (layout (self st) = None -> first = buttonsWidgetFor ts) /\
    (forall w rest, layout (self st) = Some (w :: rest) -> first = w) /\
    world st' = world st /\
    calls st' = calls st ++ [CallOnRefresh; CallRefresh].
Proof.
  intros He Hsc Hfirst.
  exists (refreshed st first). split.
  - eapply OnRefresh_alive; eassumption.
  - cbn zeta. unfold refreshed, refreshedPlugin; cbn [self world calls objs layout].
    repeat split.
    + intros Hl. unfold firstItem in Hfirst. rewrite Hl in Hfirst.
      now injection Hfirst as <-.
    + intros w rest Hl. unfold firstItem in Hfirst. rewrite Hl in Hfirst.
      now injection Hfirst as <-.
Qed.

(** *** LoadConfig: reading the configuration *)

Lemma LoadConfig_insert_ok (insertElem : XMLElement) :
  wellFormedInsert insertElem = true ->
  LoadConfig_insert insertElem = Ok (expectedObjInfo insertElem).
Proof.
  unfold wellFormedInsert, LoadConfig_insert, expectedObjInfo, hasText, textOf.
  intros Hwf. apply andb_true_iff in Hwf as [Hpose Hcolor].
  destruct (FirstChildElement "pose" insertElem) as [c|];
    destruct (FirstChildElement "color" insertElem) as [c'|];
    repeat match goal with
           | Ht : context [GetText ?x] |- _ =>
               destruct (GetText x); [clear Ht | discriminate Ht]
           end;
    reflexivity.
Qed.

Lemma LoadConfig_insert_fault (insertElem : XMLElement) :
  wellFormedInsert insertElem = false ->
  LoadConfig_insert insertElem = Fault NullText.
Proof.
  unfold wellFormedInsert, LoadConfig_insert, hasText.
  intros Hwf. apply andb_false_iff in Hwf.
  destruct (FirstChildElement "pose" insertElem) as [c|];
    destruct (FirstChildElement "color" insertElem) as [c'|];
    repeat match goal with
           | |- context [GetText ?x] => destruct (GetText x)
           end;
    destruct Hwf; try discriminate; reflexivity.
Qed.

Lemma LoadConfig_inserts_ok (siblings : list XMLNode) :
  forall objInfos : list ObjInfo,
    forallb wellFormedInsert (insertElements siblings) = true ->
    LoadConfig_inserts siblings objInfos
    = Ok (objInfos ++ map expectedObjInfo (insertElements siblings)).
Proof.
  induction siblings as [|[t|e] rest IH]; intros objInfos Hwf; simpl in *.
  - now rewrite app_nil_r.
  - now apply IH.
  - destruct (ElementName e =? "insert").
    + simpl in Hwf. apply andb_true_iff in Hwf as [He Hrest].
      rewrite (LoadConfig_insert_ok _ He). cbn [bind].
      rewrite IH by assumption. now rewrite <- app_assoc.
    + now apply IH.
Qed.

Lemma LoadConfig_inserts_fault (siblings : list XMLNode) :
  forall objInfos : list ObjInfo,
    forallb wellFormedInsert (insertElements siblings) = false ->
    LoadConfig_inserts siblings objInfos = Fault NullText.
Proof.
  induction siblings as [|[t|e] rest IH]; intros objInfos Hwf; simpl in *.
  - discriminate.
  - now apply IH.
  - destruct (ElementName e =? "insert").
    + simpl in Hwf. destruct (wellFormedInsert e) eqn:He.
      * rewrite (LoadConfig_insert_ok _ He). cbn [bind]. now apply IH.
      * now rewrite (LoadConfig_insert_fault _ He).
    + now apply IH.
Qed.

(** The loop starts at [FirstChildElement("insert")] and each
    [NextSiblingElement("insert")] is the first [<insert>] among the
    siblings that follow. *)
Lemma insertElements_first (siblings : list XMLNode) :
  FirstElement "insert" siblings = hd_error (insertElements siblings).
Proof.
  induction siblings as [|[t|e] rest IH]; simpl; auto.
  now destruct (ElementName e =? "insert").
Qed.

Lemma set_sceneName_same p : set_sceneName (sceneName p) p = p.
Proof. now destruct p. Qed.

Lemma LoadConfig_configuration_ok (_pluginElem : option XMLElement) p :
  wellFormedConfig _pluginElem = true ->
  LoadConfig_configuration _pluginElem p
  = Ok (expectedEngineName _pluginElem,
        expectedObjInfos _pluginElem,
        set_sceneName (expectedSceneName _pluginElem (sceneName p)) p).
Proof.
  destruct _pluginElem as [e|]; simpl.
  - intros Hwf.
    apply andb_true_iff in Hwf as [Hwf Hins].
    apply andb_true_iff in Hwf as [Heng Hscene].
    unfold LoadConfig_configuration, hasText, textOf in *.
    destruct (FirstChildElement "engine" e) as [c|];
      destruct (FirstChildElement "scene" e) as [c'|];
      repeat match goal with
             | Ht : context [GetText ?x] |- _ =>
                 destruct (GetText x); [clear Ht | discriminate Ht]
             end;
      cbn [deref bind];
      rewrite (LoadConfig_inserts_ok _ _ Hins); cbn [bind app];
      now rewrite ?set_sceneName_same.
  - intros _. now rewrite set_sceneName_same.
Qed.

Lemma LoadConfig_configuration_fault (_pluginElem : option XMLElement) p :
  wellFormedConfig _pluginElem = false ->
  LoadConfig_configuration _pluginElem p = Fault NullText.
Proof.
  destruct _pluginElem as [e|]; simpl; [|discriminate].
  unfold LoadConfig_configuration, hasText.
  destruct (FirstChildElement "engine" e) as [c|];
    destruct (FirstChildElement "scene" e) as [c'|];
    repeat match goal with
           | |- context [GetText ?x] => destruct (GetText x)
           end;
    cbn [deref bind andb]; intros Hins; try discriminate; try reflexivity;
    now rewrite (LoadConfig_inserts_fault _ _ Hins).
Qed.

(** The loop over the initial objects does nothing. *)
Lemma LoadConfig_initialObjs_id (objInfos : list ObjInfo) (w : World) :
  LoadConfig_initialObjs objInfos w = w.
Proof.
  unfold LoadConfig_initialObjs.
  induction objInfos as [|o objInfos IH]; simpl; auto.
Qed.

Lemma engineError_not_empty (engineName : string) :
  (engineError engineName =? EmptyString) = false.
Proof. reflexivity. Qed.

Lemma sceneError_not_empty (name : string) :
  (sceneError name =? EmptyString) = false.
Proof. reflexivity. Qed.

(** *** LoadConfig, case by case *)

Lemma LoadConfig_cases (_pluginElem : option XMLElement) st :
  wellFormedConfig _pluginElem = true ->
  LoadConfig _pluginElem st
  = let p := configured _pluginElem st in
    match engine p with
    | None =>
        let error := engineError (expectedEngineName _pluginElem) in
        let st1 := mkState p (world st) (calls st ++ [CallWarn error]) in
        if deleteLaterRequested p then Ok st1
        else Ok (with_self (setLayout [QLabel error]) st1)
    | Some e =>
        match SceneByName (world st) e (sceneName p) with
        | None =>
            let error := sceneError (sceneName p) in
            let st1 := mkState p (world st) (calls st ++ [CallWarn error]) in
            if deleteLaterRequested p then Ok st1
            else Ok (with_self (setLayout [QLabel error]) st1)
        | Some _ =>
            let st1 := mkState p (world st) (calls st) in
            if deleteLaterRequested p then Ok st1 else OnRefresh st1
        end
    end.
Proof.
  intros Hwf. unfold LoadConfig.
  rewrite (LoadConfig_configuration_ok _ _ Hwf). cbn [bind].
  destruct st as [p w cs]; destruct p as [t ts sn en ob dl ly orp].
  unfold configured, expectedTitle.
  cbn [self world calls title typeSingular sceneName engine objs
       deleteLaterRequested layout orphans].
  destruct (t =? EmptyString);
    cbn [with_self self world calls set_title set_sceneName set_engine
         title typeSingular sceneName engine objs deleteLaterRequested
         layout orphans];
    (destruct (rendering_engine w (expectedEngineName _pluginElem)) as [e|];
     [ destruct (SceneByName w e (expectedSceneName _pluginElem sn)) as [sc|]
     | ]);
    cbn [record set_world self world calls deleteLaterRequested];
    rewrite ?LoadConfig_initialObjs_id;
    rewrite ?engineError_not_empty, ?sceneError_not_empty;
    destruct dl; reflexivity.
Qed.

Lemma firstItem_configured (_pluginElem : option XMLElement) st :
  firstItem (configured _pluginElem st) = firstItem (self st).
Proof. reflexivity. Qed.

Lemma firstItem_some p : layout p <> Some [] -> firstItem p <> None.
Proof.
  unfold firstItem.
  destruct (layout p) as [[|w rest]|]; intros Hl;
    [now elim Hl | discriminate | discriminate].
Qed.

(** With a readable configuration, and unless the layout is one without
    items, [LoadConfig] returns, and leaves the members as configured. *)
Lemma LoadConfig_returns (_pluginElem : option XMLElement) st :
  wellFormedConfig _pluginElem = true ->
  layout (self st) <> Some [] ->
  exists st',
    LoadConfig _pluginElem st = Ok st' /\
    world st' = world st /\
    title (self st') = expectedTitle (self st) /\
    engine (self st')
    = rendering_engine (world st) (expectedEngineName _pluginElem) /\
    sceneName (self st')
    = expectedSceneName _pluginElem (sceneName (self st)).
Proof.
  intros Hwf Hl. rewrite (LoadConfig_cases _ _ Hwf). cbn zeta.
  destruct (engine (configured _pluginElem st)) as [e|] eqn:He.
  - destruct (SceneByName (world st) e
                (sceneName (configured _pluginElem st))) as [sc|] eqn:Hsc.
    + destruct (deleteLaterRequested (configured _pluginElem st)).
      * eexists; split; [reflexivity|]. cbn. auto.
      * apply firstItem_some in Hl.
        rewrite <- (firstItem_configured _pluginElem) in Hl.
        rewrite OnRefresh_cases. cbn [self world calls].
        destruct (firstItem (configured _pluginElem st)) as [first|];
          [|congruence].
        rewrite He, Hsc.
        eexists; split; [reflexivity|]. cbn. auto.
    + destruct (deleteLaterRequested (configured _pluginElem st));
        (eexists; split; [reflexivity|]);
        unfold with_self, setLayout; cbn;
        destruct (layout (self st)); cbn; auto.
  - destruct (deleteLaterRequested (configured _pluginElem st));
      (eexists; split; [reflexivity|]);
      unfold with_self, setLayout; cbn;
      destruct (layout (self st)); cbn; auto.
Qed.

Lemma textOf_GetText (o : option XMLElement) (c : XMLElement) :
  hasText o = true -> o = Some c -> GetText c = Some (textOf c).
Proof.
  intros Ht ->. unfold hasText, textOf in *.
  now destruct (GetText c).
Qed.

(** C4.  On a configuration whose elements carry their text, the engine
    name that [LoadConfig] reads, and then looks up, is the text of the
    first [<engine>] child, and "ogre" when the element is null or has no
    such child; the scene name becomes the text of the first [<scene>]
    child and stays as it was without one. *)
Theorem LoadConfig_engine_and_scene_names
        (_pluginElem : option XMLElement) st :
  wellFormedConfig _pluginElem = true ->
  exists (engineName : string) (objInfos : list ObjInfo) p',
    LoadConfig_configuration _pluginElem (self st)
    = Ok (engineName, objInfos, p') /\
    match _pluginElem with
    | None => engineName = "ogre"
    | Some e =>
        match FirstChildElement "engine" e with
        | None => engineName = "ogre"
        | Some c => GetText c = Some engineName
        end
    end /\
    match _pluginElem with
    | None => sceneName p' = sceneName (self st)
    | Some e =>
        match FirstChildElement "scene" e with
        | None => sceneName p' = sceneName (self st)
        | Some c => GetText c = Some (sceneName p')
        end
    end /\
    (layout (self st) <> Some [] ->
     exists st',
       LoadConfig _pluginElem st = Ok st' /\
       engine (self st') = rendering_engine (world st) engineName /\
       sceneName (self st') = sceneName p').
Proof.
  intros Hwf.
  exists (expectedEngineName _pluginElem), (expectedObjInfos _pluginElem),
    (set_sceneName (expectedSceneName _pluginElem (sceneName (self st)))
                   (self st)).
  split; [|split; [|split]].
  - now apply LoadConfig_configuration_ok.
  - destruct _pluginElem as [e|]; [|reflexivity]. simpl in *.
    apply andb_true_iff in Hwf as [Hwf _].
    apply andb_true_iff in Hwf as [Heng _].
    destruct (FirstChildElement "engine" e) as [c|] eqn:Hc; [|reflexivity].
    now apply (textOf_GetText _ c Heng).
  - destruct _pluginElem as [e|]; [|reflexivity]. simpl in *.
    apply andb_true_iff in Hwf as [Hwf _].
    apply andb_true_iff in Hwf as [_ Hscene].
    destruct (FirstChildElement "scene" e) as [c|] eqn:Hc; [|reflexivity].
    now apply (textOf_GetText _ c Hscene).
  - intros Hl.
    destruct (LoadConfig_returns _pluginElem st Hwf Hl)
      as (st' & Hrun & _ & _ & He & Hs).
    exists st'. cbn. auto.
Qed.

(** C5.  On a configuration whose elements carry their text, the objects
    to insert are one per [<insert>] child, in document order; the pose of
    each is read from the text of the first [<pose>] child of its
    [<insert>] and is the zero pose without one, and its colour is read
    from the first [<color>] child and is (0.7, 0.7, 0.7, 1.0) without
    one. *)
Theorem LoadConfig_objInfos (_pluginElem : option XMLElement) p :
  wellFormedConfig _pluginElem = true ->
  exists (engineName : string) (objInfos : list ObjInfo) p',
    LoadConfig_configuration _pluginElem p = Ok (engineName, objInfos, p') /\
    Forall2
      (fun (insertElem : XMLElement) (objInfo : ObjInfo) =>
         match FirstChildElement "pose" insertElem with
         | None => pose objInfo = (mkPose3d 0 0 0 0 0 0)%Q
         | Some c =>
             exists t, GetText c = Some t /\
                       pose objInfo = read_Pose3d t (mkPose3d 0 0 0 0 0 0)%Q
         end /\
         match FirstChildElement "color" insertElem with
         | None => color objInfo = (mkColor 0.7 0.7 0.7 1.0)%Q
         | Some c =>
             exists t, GetText c = Some t /\
                       color objInfo
                       = read_Color t (mkColor 0.7 0.7 0.7 1.0)%Q
         end)
      match _pluginElem with
      | None => []
      | Some e => insertElements (Children e)
      end
      objInfos.
Proof.
  intros Hwf.
  exists (expectedEngineName _pluginElem), (expectedObjInfos _pluginElem),
    (set_sceneName (expectedSceneName _pluginElem (sceneName p)) p).
  split; [now apply LoadConfig_configuration_ok|].
  destruct _pluginElem as [e|]; [|constructor].
  simpl in Hwf. apply andb_true_iff in Hwf as [_ Hins].
  unfold expectedObjInfos.
  induction (insertElements (Children e)) as [|ins inserts IH];
    simpl in *; constructor.
  - apply andb_true_iff in Hins as [Hwf _].
    apply andb_true_iff in Hwf as [Hpose Hcolor].
    unfold expectedObjInfo; cbn [pose color]. split.
    + destruct (FirstChildElement "pose" ins) as [c|] eqn:Hc;
        [|reflexivity].
      exists (textOf c). split; [|reflexivity].
      now apply (textOf_GetText _ c Hpose).
    + destruct (FirstChildElement "color" ins) as [c|] eqn:Hc;
        [|reflexivity].
      exists (textOf c). split; [|reflexivity].
      now apply (textOf_GetText _ c Hcolor).
  - apply IH. now apply andb_true_iff in Hins as [_ ?].
Qed.


(** C8.  The plugin has no layout yet and its deletion was not requested.
    If the engine is not found, or the engine is found and the scene is
    not, [LoadConfig] installs a layout that holds the error message in a
    label and nothing else, and returns: the refresh slot is not entered,
    so there is neither a list of objects nor a button. *)
Theorem LoadConfig_error_label (_pluginElem : option XMLElement) st :
  wellFormedConfig _pluginElem = true ->
  deleteLaterRequested (self st) = false ->
  layout (self st) = None ->
  let engineName := expectedEngineName _pluginElem in
  let scene := expectedSceneName _pluginElem (sceneName (self st)) in
  forall error : string,
    (rendering_engine (world st) engineName = None /\
     error = ("Engine " ++ dquote ++ engineName ++ dquote ++
              " not supported, plugin won't work.")%string) \/
    (exists e, rendering_engine (world st) engineName = Some e /\
               SceneByName (world st) e scene = None /\
               error = ("Scene " ++ dquote ++ scene ++ dquote ++
                        " not found, plugin won't work.")%string) ->
    exists st',
      LoadConfig _pluginElem st = Ok st' /\
      layout (self st') = Some [QLabel error] /\
      calls st' = calls st ++ [CallWarn error] /\
      objs (self st') = objs (self st) /\
      world st' = world st.
Proof.
  intros Hwf Hdl Hl engineName scene error Hcase.
  rewrite (LoadConfig_cases _ _ Hwf). cbn zeta.
  assert (Hdl' : deleteLaterRequested (configured _pluginElem st) = false)
    by exact Hdl.
  rewrite !Hdl'.
  change (engine (configured _pluginElem st))
    with (rendering_engine (world st) engineName).
  change (sceneName (configured _pluginElem st)) with scene.
  destruct Hcase as [[He ->] | (e & He & Hsc & ->)].
  - rewrite He. eexists; split; [reflexivity|].
    unfold with_self, setLayout; cbn. rewrite Hl. cbn. auto.
  - rewrite He, Hsc. eexists; split; [reflexivity|].
    unfold with_self, setLayout; cbn. rewrite Hl. cbn. auto.
Qed.

(** [LoadConfig] leaves the rendering world as it found it. *)
Lemma LoadConfig_world (_pluginElem : option XMLElement) st st' :
  LoadConfig _pluginElem st = Ok st' -> world st' = world st.
Proof.
  destruct (wellFormedConfig _pluginElem) eqn:Hwf.
  - rewrite (LoadConfig_cases _ _ Hwf). cbn zeta.
    destruct (engine (configured _pluginElem st)) as [e|];
      [destruct (SceneByName (world st) e
                   (sceneName (configured _pluginElem st)))|];
      destruct (deleteLaterRequested (configured _pluginElem st));
      try (intros [= <-]; reflexivity).
    intros Hr. now apply OnRefresh_frame in Hr as [Hw _].
  - unfold LoadConfig.
    now rewrite (LoadConfig_configuration_fault _ _ Hwf).
Qed.

(** *** The loops over the objects *)

Lemma OnChange_loop_skip (objName type : string) (_value : QVariant)
      (pre : list ObjectPtr) :
  forall (rest : list ObjectPtr) st,
    (forall o, In o pre -> Name o <> objName) ->
    OnChange_loop objName type _value (pre ++ rest) st
    = OnChange_loop objName type _value rest st.
Proof.
  induction pre as [|o pre IH]; intros rest st Hpre; [reflexivity|].
  simpl. destruct (String.eqb_spec (Name o) objName) as [Heq|Hneq].
  - exfalso. apply (Hpre o); [now left | assumption].
  - simpl. apply IH. intros o' Ho'. apply Hpre. now right.
Qed.

Lemma deleteRefused_no_match (m : Members) (objName : string)
      (pre : list ObjectPtr) (w : World) :
  (forall o, In o pre -> Name o <> objName) ->
  deleteRefused m objName pre w = true /\
  afterRefusals m objName pre w = (w, []).
Proof.
  induction pre as [|o pre IH]; intros Hpre; [now split|].
  simpl. destruct (String.eqb_spec (Name o) objName) as [Heq|Hneq].
  - exfalso. apply (Hpre o); [now left | assumption].
  - apply IH. intros o' Ho'. apply Hpre. now right.
Qed.

Lemma OnDelete_loop_refused (objName : string) (pre : list ObjectPtr) :
  forall (rest : list ObjectPtr) p (w : World) (cs : list Call),
    deleteRefused (members p) objName pre w = true ->
    OnDelete_loop objName (pre ++ rest) (mkState p w cs)
    = OnDelete_loop objName rest
        (mkState p (fst (afterRefusals (members p) objName pre w))
                 (cs ++ snd (afterRefusals (members p) objName pre w))).
Proof.
  induction pre as [|o pre IH]; intros rest p w cs Href; simpl in *.
  - now rewrite app_nil_r.
  - destruct (Name o =? objName); simpl.
    + apply andb_true_iff in Href as [Hno Href].
      cbn [self world calls].
      destruct (Delete (members p) o w) as [deleted w1]; simpl in *.
      apply negb_true_iff in Hno; subst deleted. simpl.
      unfold record, set_world; cbn [self world calls].
      rewrite IH by assumption.
      destruct (afterRefusals (members p) objName pre w1) as [w2 cs2].
      simpl. now rewrite <- app_assoc.
    + now apply IH.
Qed.

(** C3.  A change signalled by a property widget: [Change] is called
    once, on the first object of the list that bears the name held by the
    sender, with the sender's object name as the property; the list and
    the other members are not written, and no other call is made.  When
    no object bears the name, nothing happens at all. *)
Theorem OnChange_first_match (sender : QObject) (_value : QVariant) st :
  (forall (pre : list ObjectPtr) (obj : ObjectPtr) (post : list ObjectPtr),
      objs (self st) = pre ++ obj :: post ->
      (forall o, In o pre -> Name o <> objNameOf sender) ->
      Name obj = objNameOf sender ->
      OnChange sender _value st
      = mkState (self st)
                (Change (members (self st)) obj (objectName sender) _value
                        (world st))
                (calls st ++ [CallChange obj (objectName sender) _value])) /\
  ((forall o, In o (objs (self st)) -> Name o <> objNameOf sender) ->
   OnChange sender _value st = st).
Proof.
  unfold OnChange. split.
  - intros pre obj post Hobjs Hpre Hname. rewrite Hobjs.
    rewrite OnChange_loop_skip by assumption.
    simpl. rewrite Hname, String.eqb_refl. reflexivity.
  - intros Hnone.
    rewrite <- (app_nil_r (objs (self st))).
    now rewrite OnChange_loop_skip.
Qed.

(** C1.  A click on a delete button runs [OnDelete] with the button as
    sender.  The objects before the first one that bears the sender's
    name are passed over, and that one is the first given to [Delete].
    When [Delete] accepts an object (the first of that name, or a later
    one once it has refused those before), every entry of the list equal
    to that object is erased, no other entry is, and [OnRefresh] runs on
    that list.  What the list is in the end depends on the scene.  If the
    scene is found in the world that [Delete] left, the list is the one
    that [Refresh] appends there, with its rows: the erased object is off
    the list only if [Refresh] does not report it.  If the scene is not
    found, nothing is rebuilt: the list is the former one without the
    object and the layout holds the message alone.  When [Delete] refuses
    every object of that name, the list and the widgets stay as they
    were. *)
Theorem OnDelete_first_match (sender : QObject) st :
  let objName := objNameOf sender in
  let m := members (self st) in
  (forall b : QPushButton,
      btn_clicked b = SLOT_OnDelete ->
      click b st = OnDelete (senderOf b) st) /\
  (forall (pre : list ObjectPtr) (obj : ObjectPtr) (post : list ObjectPtr),
      objs (self st) = pre ++ obj :: post ->
      (forall o, In o pre -> Name o <> objName) ->
      Name obj = objName ->
      OnDelete sender st
      = let (deleted, w) := Delete m obj (world st) in
        if deleted
        then OnRefresh
               (mkState (set_objs (remove ObjectPtr_eq_dec obj
                                          (objs (self st))) (self st))
                        w (calls st ++ [CallDelete obj]))
        else OnDelete_loop objName post
               (mkState (self st) w (calls st ++ [CallDelete obj]))) /\
  (forall (pre : list ObjectPtr) (obj : ObjectPtr) (post : list ObjectPtr)
          (w : World),
      objs (self st) = pre ++ obj :: post ->
      deleteRefused m objName pre (world st) = true ->
      Name obj = objName ->
      Delete m obj (fst (afterRefusals m objName pre (world st)))
      = (true, w) ->
      OnDelete sender st
      = OnRefresh
          (mkState (set_objs (remove ObjectPtr_eq_dec obj (objs (self st)))
                             (self st))
                   w
                   (calls st ++ snd (afterRefusals m objName pre (world st))
                          ++ [CallDelete obj])) /\
      forall x, In x (remove ObjectPtr_eq_dec obj (objs (self st))) <->
                In x (objs (self st)) /\ x <> obj) /\
  (deleteRefused m objName (objs (self st)) (world st) = true ->
   exists (w : World) (cs : list Call),
     OnDelete sender st = Ok (mkState (self st) w (calls st ++ cs)) /\
     ~ In CallOnRefresh cs) /\
  (forall (pre : list ObjectPtr) (obj : ObjectPtr) (post : list ObjectPtr)
          (w : World) (e : RenderEngine) (first : Widget),
      objs (self st) = pre ++ obj :: post ->
      deleteRefused m objName pre (world st) = true ->
      Name obj = objName ->
      Delete m obj (fst (afterRefusals m objName pre (world st)))
      = (true, w) ->
      engine (self st) = Some e ->
      firstItem (self st) = Some first ->
      exists st',
        OnDelete sender st = Ok st' /\
        world st' = w /\
        match SceneByName w e (sceneName (self st)) with
        | Some _ =>
            objs (self st') = map fst (Refresh m w) /\
            layout (self st')
            = Some (first
                      :: map (rowFor (typeSingular (self st))) (Refresh m w)
                      ++ [SpacerWidget]) /\
            calls st'
            = calls st ++ snd (afterRefusals m objName pre (world st))
                    ++ [CallDelete obj; CallOnRefresh; CallRefresh]
        | None =>
            objs (self st') = remove ObjectPtr_eq_dec obj (objs (self st)) /\
            layout (self st')
            = Some [QLabel (destroyedMsg (sceneName (self st)))] /\
            calls st'
            = calls st ++ snd (afterRefusals m objName pre (world st))
                    ++ [CallDelete obj; CallOnRefresh]
        end).
Proof.
  intros objName m. unfold OnDelete. fold objName.
  destruct st as [p w0 cs0]. cbn [self world calls] in *.
  repeat apply conj.
  - intros b Hb. unfold click. now rewrite Hb.
  - intros pre obj post Hobjs Hpre Hname.
    destruct (deleteRefused_no_match m objName pre w0 Hpre) as [Href Haft].
    rewrite Hobjs at 1.
    rewrite OnDelete_loop_refused by exact Href.
    fold m. rewrite Haft. cbn [fst snd]. rewrite app_nil_r.
    cbn [OnDelete_loop]. rewrite Hname, String.eqb_refl.
    cbn [negb self world calls]. fold m.
    destruct (Delete m obj w0) as [[|] w1]; reflexivity.
  - intros pre obj post w Hobjs Href Hname Hdel. split.
    + rewrite Hobjs at 1.
      rewrite OnDelete_loop_refused by exact Href.
      fold m. cbn [OnDelete_loop]. rewrite Hname, String.eqb_refl.
      cbn [negb self world calls]. fold m. rewrite Hdel.
      unfold record, set_world, with_self; cbn [negb self world calls].
      now rewrite <- app_assoc.
    + intros x. split.
      * apply in_remove.
      * intros [Hin Hneq]. now apply in_in_remove.
  - intros Href.
    rewrite <- (app_nil_r (objs p)).
    rewrite OnDelete_loop_refused by exact Href.
    fold m. cbn [OnDelete_loop].
    eexists; eexists; split; [reflexivity|].
    clear Href. generalize w0.
    induction (objs p) as [|o l IH]; intros w1; simpl; [tauto|].
    destruct (Name o =? objName); [|apply IH].
    specialize (IH (snd (Delete m o w1))).
    destruct (afterRefusals m objName l (snd (Delete m o w1))).
    simpl in *. intros [Hc|Hc]; [discriminate | tauto].
  - intros pre obj post w e first Hobjs Href Hname Hdel He Hfirst.
    assert (Hrun :
              OnDelete_loop objName (objs p) (mkState p w0 cs0)
              = match SceneByName w e (sceneName p) with
                | Some _ =>
                    Ok (refreshed
                          (mkState
                             (set_objs (remove ObjectPtr_eq_dec obj (objs p))
                                       p)
                             w
                             ((cs0 ++ snd (afterRefusals m objName pre w0))
                                ++ [CallDelete obj]))
                          first)
                | None =>
                    Ok (destroyed
                          (mkState
                             (set_objs (remove ObjectPtr_eq_dec obj (objs p))
                                       p)
                             w
                             ((cs0 ++ snd (afterRefusals m objName pre w0))
                                ++ [CallDelete obj])))
                end).
    { rewrite Hobjs at 1.
      rewrite OnDelete_loop_refused by exact Href.
      fold m. cbn [OnDelete_loop]. rewrite Hname, String.eqb_refl.
      cbn [negb self world calls]. fold m. rewrite Hdel. cbn [negb].
      rewrite OnRefresh_cases.
      unfold record, set_world, with_self; cbn [self world calls].
      change (firstItem (set_objs (remove ObjectPtr_eq_dec obj (objs p)) p))
        with (firstItem p).
      change (engine (set_objs (remove ObjectPtr_eq_dec obj (objs p)) p))
        with (engine p).
      change (sceneName (set_objs (remove ObjectPtr_eq_dec obj (objs p)) p))
        with (sceneName p).
      now rewrite Hfirst, He. }
    rewrite Hrun.
    destruct (SceneByName w e (sceneName p)) as [sc|];
      (eexists; split; [reflexivity|]; split; [reflexivity|]);
      unfold refreshed, destroyed; cbn;
      rewrite <- !app_assoc; repeat split.
Qed.

(** C6.  A click on the add button, on a plugin whose engine is set and
    whose layout has an item at index 0: [Add] is called once, then the
    slot of the refresh is entered, once, and [OnAdd] returns in the
    world that [Add] left.  If the scene is found in that world, the list
    is rebuilt: it is the one [Refresh] appends there, each object with
    its row, so that an object is on the list exactly when [Refresh]
    reports it.  If the scene is not found, [Add] has run all the same
    and nothing is rebuilt: [Refresh] is not called, the list is the one
    there was and the layout holds the message alone. *)
Theorem OnAdd_then_refresh st :
  let m := members (self st) in
  let added := Add m (world st) in
  let ts := typeSingular (self st) in
  click (addButtonFor ts) st = OnAdd st /\
  OnAdd st = OnRefresh (mkState (self st) added (calls st ++ [CallAdd])) /\
  forall (e : RenderEngine) (first : Widget),
    engine (self st) = Some e ->
    firstItem (self st) = Some first ->
    exists st',
      OnAdd st = Ok st' /\
      world st' = added /\
      match SceneByName added e (sceneName (self st)) with
      | Some _ =>
          calls st' = calls st ++ [CallAdd; CallOnRefresh; CallRefresh] /\
          objs (self st') = map fst (Refresh m added) /\
          layout (self st')
          = Some (first
                    :: map (fun a => collapsibleFor ts (fst a) (snd a))
                           (Refresh m added)
                    ++ [SpacerWidget]) /\
          forall obj : ObjectPtr,
            In obj (objs (self st')) <->
            exists props, In (obj, props) (Refresh m added)
      | None =>
          calls st' = calls st ++ [CallAdd; CallOnRefresh] /\
          objs (self st') = objs (self st) /\
          layout (self st')
          = Some [QLabel (destroyedMsg (sceneName (self st)))]
      end.
Proof.
  intros m added ts. split; [reflexivity|]. split; [reflexivity|].
  intros e first He Hfirst.
  unfold OnAdd, record, set_world; cbn [self world calls]. fold m added.
  rewrite OnRefresh_cases; cbn [self world calls]. rewrite Hfirst, He.
  destruct (SceneByName added e (sceneName (self st))) as [sc|];
    (eexists; split; [reflexivity|]; split; [reflexivity|]).
  - unfold refreshed, refreshedPlugin. cbn [self world calls objs layout].
    fold m. rewrite <- app_assoc.
    split; [reflexivity|]. split; [reflexivity|]. split; [reflexivity|].
    intros obj. rewrite in_map_iff. split.
    + intros ([o props] & Ho & Hin). cbn in Ho. subst o. now exists props.
    + intros (props & Hin). now exists (obj, props).
  - unfold destroyed. cbn [self world calls objs layout].
    rewrite <- app_assoc. repeat split.
Qed.

End Properties.

(** ** Further properties of the slots *)

Section Slots.
Context {R : Rendering} {G : Gui} {H : Object3DHooks} {M : MathStreams}.

Implicit Types (st : State) (p : Object3DPlugin) (l : QLayout).

Lemma sameConfiguration_refl p : sameConfiguration p p.
Proof. repeat split. Qed.

Lemma sameConfiguration_trans p p' p'' :
  sameConfiguration p p' -> sameConfiguration p' p'' ->
  sameConfiguration p p''.
Proof.
  unfold sameConfiguration.
  intros (-> & -> & -> & -> & ->) (-> & -> & -> & -> & ->).
  repeat split.
Qed.

Lemma canRefresh_same p p' :
  engine p' = engine p -> layout p' = layout p ->
  canRefresh p' = canRefresh p.
Proof. unfold canRefresh. now intros -> ->. Qed.

Lemma canRefresh_firstItem p :
  canRefresh p = true ->
  exists (e : RenderEngine) (first : Widget),
    engine p = Some e /\ firstItem p = Some first.
Proof.
  unfold canRefresh, firstItem.
  destruct (engine p) as [e|]; [|discriminate].
  destruct (layout p) as [[|w rest]|]; [discriminate| |]; intros _;
    eexists; eexists; split; reflexivity.
Qed.

(** A refresh that can run returns, can run again, and leaves the
    configuration and the world alone. *)
Lemma OnRefresh_ok st :
  canRefresh (self st) = true ->
  exists st',
    OnRefresh st = Ok st' /\
    canRefresh (self st') = true /\
    sameConfiguration (self st) (self st') /\
    world st' = world st.
Proof.
  intros Hcan.
  destruct (canRefresh_firstItem _ Hcan) as (e & first & He & Hfirst).
  rewrite OnRefresh_cases, Hfirst, He.
  destruct (SceneByName (world st) e (sceneName (self st)));
    (eexists; split; [reflexivity|]);
    unfold canRefresh, sameConfiguration; cbn; rewrite He; auto 10.
Qed.

Lemma OnChange_loop_self (objName type : string) (_value : QVariant)
      (rest : list ObjectPtr) st :
  self (OnChange_loop objName type _value rest st) = self st.
Proof.
  induction rest as [|o rest IH]; [reflexivity|].
  simpl. now destruct (Name o =? objName).
Qed.

Lemma OnDelete_loop_ok (objName : string) (rest : list ObjectPtr) :
  forall st,
    canRefresh (self st) = true ->
    exists st',
      OnDelete_loop objName rest st = Ok st' /\
      canRefresh (self st') = true /\
      sameConfiguration (self st) (self st').
Proof.
  induction rest as [|o rest IH]; intros st Hcan.
  - exists st. split; [reflexivity|]. split; [assumption|].
    apply sameConfiguration_refl.
  - cbn [OnDelete_loop]. destruct (Name o =? objName); cbn [negb].
    + destruct (Delete (members (self st)) o (world st)) as [[|] w];
        cbn [negb].
      * destruct (OnRefresh_ok
                    (with_self
                       (fun p => set_objs
                                   (remove ObjectPtr_eq_dec o (objs p)) p)
                       (record (CallDelete o) (set_world w st))))
          as (st' & Hrun & Hcan' & Hsame & _).
        { destruct st as [p w0 cs]; destruct p. exact Hcan. }
        exists st'. split; [exact Hrun|]. split; [exact Hcan'|].
        destruct st as [p w0 cs]; destruct p. exact Hsame.
      * apply (IH (record (CallDelete o) (set_world w st))). exact Hcan.
    + now apply IH.
Qed.

Lemma deliver_ok (s : Signal) st :
  canRefresh (self st) = true ->
  exists st',
    deliver s st = Ok st' /\
    canRefresh (self st') = true /\
    sameConfiguration (self st) (self st').
Proof.
  intros Hcan. destruct s as [b|sender value]; cbn [deliver].
  - unfold click. destruct (btn_clicked b).
    + destruct (OnRefresh_ok
                  (record CallAdd
                     (set_world (Add (members (self st)) (world st)) st)))
        as (st' & Hrun & Hcan' & Hsame & _); [exact Hcan|].
      exists st'. auto.
    + destruct (OnRefresh_ok st Hcan) as (st' & Hrun & Hcan' & Hsame & _).
      exists st'. auto.
    + now apply OnDelete_loop_ok.
  - eexists. split; [reflexivity|].
    unfold OnChange. rewrite OnChange_loop_self.
    split; [assumption | apply sameConfiguration_refl].
Qed.

Lemma OnRefresh_sameConfiguration st st' :
  OnRefresh st = Ok st' -> sameConfiguration (self st) (self st').
Proof.
  intros Hrun. apply OnRefresh_frame in Hrun. unfold sameConfiguration.
  tauto.
Qed.

Lemma OnDelete_loop_sameConfiguration (objName : string)
      (rest : list ObjectPtr) :
  forall st st',
    OnDelete_loop objName rest st = Ok st' ->
    sameConfiguration (self st) (self st').
Proof.
  induction rest as [|o rest IH]; intros st st' Hrun.
  - injection Hrun as <-. apply sameConfiguration_refl.
  - cbn [OnDelete_loop] in Hrun.
    destruct (Name o =? objName); cbn [negb] in Hrun;
      [|now apply IH].
    destruct (Delete (members (self st)) o (world st)) as [[|] w];
      cbn [negb] in Hrun.
    + apply OnRefresh_sameConfiguration in Hrun.
      destruct st as [p w0 cs]; destruct p. exact Hrun.
    + apply IH in Hrun. exact Hrun.
Qed.

Lemma deliver_sameConfiguration (s : Signal) st st' :
  deliver s st = Ok st' -> sameConfiguration (self st) (self st').
Proof.
  destruct s as [b|sender value]; cbn [deliver].
  - unfold click. destruct (btn_clicked b); intros Hrun.
    + apply OnRefresh_sameConfiguration in Hrun. exact Hrun.
    + now apply OnRefresh_sameConfiguration.
    + now apply OnDelete_loop_sameConfiguration in Hrun.
  - intros [= <-]. unfold OnChange. rewrite OnChange_loop_self.
    apply sameConfiguration_refl.
Qed.

Lemma notDeleted_rows (typeSingular : string)
      (appended : list (ObjectPtr * list PropertyWidget))
      (rest : list Widget) :
  notDeleted (map (rowFor typeSingular) appended ++ rest) = notDeleted rest.
Proof.
  induction appended as [|a appended IH]; [reflexivity|].
  exact IH.
Qed.

(** *** Signals, one after the other *)

(** X1.  Whatever the signals and whatever the derived plugin does to the
    world, the slots never write the title, the singular of the type, the
    scene name, the engine or the deletion flag: these are as
    [LoadConfig] left them. *)
Theorem signals_keep_configuration (signals : list Signal) :
  forall st st',
    deliverAll signals st = Ok st' ->
    title (self st') = title (self st) /\
    typeSingular (self st') = typeSingular (self st) /\
    sceneName (self st') = sceneName (self st) /\
    engine (self st') = engine (self st) /\
    deleteLaterRequested (self st') = deleteLaterRequested (self st).
Proof.
  induction signals as [|s signals IH]; intros st st' Hrun.
  - injection Hrun as <-. repeat split.
  - cbn [deliverAll] in Hrun.
    destruct (deliver s st) as [st1| |] eqn:Hs; try discriminate.
    cbn [bind] in Hrun.
    apply deliver_sameConfiguration in Hs. apply IH in Hrun.
    exact (sameConfiguration_trans _ _ _ Hs Hrun).
Qed.

(** X2.  Once the engine is set and the layout, if there is one, has an
    item, no sequence of clicks and value changes dereferences a null
    pointer, and the plugin is again in such a state afterwards. *)
Theorem signals_never_fault (signals : list Signal) :
  forall st,
    canRefresh (self st) = true ->
    exists st',
      deliverAll signals st = Ok st' /\ canRefresh (self st') = true.
Proof.
  induction signals as [|s signals IH]; intros st Hcan.
  - exists st. now split.
  - destruct (deliver_ok s st Hcan) as (st1 & Hs & Hcan1 & _).
    destruct (IH st1 Hcan1) as (st' & Hrun & Hcan').
    exists st'. cbn [deliverAll]. rewrite Hs. now split.
Qed.

(** *** OnRefresh: the other cases *)

(** X3.  A refresh that does not find the scene: the layout is left with
    the message that the scene has been destroyed and nothing else (the
    buttons are deleted), [Refresh] is not called, and the list of
    objects is not cleared. *)
Theorem OnRefresh_destroyed_scene st (e : RenderEngine) :
  engine (self st) = Some e ->
  SceneByName (world st) e (sceneName (self st)) = None ->
  layout (self st) <> Some [] ->
  exists st',
    OnRefresh st = Ok st' /\
    layout (self st')
    = Some [QLabel ("Scene " ++ dquote ++ sceneName (self st) ++ dquote ++
                    " has been destroyed." ++
                    String "010"%char EmptyString ++
                    "Create a new scene and then open a new plugin.")%string]
    /\ objs (self st') = objs (self st) /\
    calls st' = calls st ++ [CallOnRefresh] /\
    world st' = world st.
Proof.
  intros He Hsc Hl. apply firstItem_some in Hl.
  rewrite OnRefresh_cases, He, Hsc.
  destruct (firstItem (self st)) as [first|]; [|now elim Hl].
  eexists. split; [reflexivity|]. cbn. auto.
Qed.

(** X4.  A refresh, or a click on the add button, of a plugin whose
    engine is null dereferences it (unless the layout is one without
    items, which faults before). *)
Theorem OnRefresh_null_engine st :
  engine (self st) = None ->
  layout (self st) <> Some [] ->
  OnRefresh st = Fault NullEngine /\ OnAdd st = Fault NullEngine.
Proof.
  intros He Hl. apply firstItem_some in Hl. split.
  - rewrite OnRefresh_cases, He.
    now destruct (firstItem (self st)).
  - unfold OnAdd. rewrite OnRefresh_cases. cbn [record set_world self].
    rewrite He. now destruct (firstItem (self st)).
Qed.

(** X5.  Two refreshes in a row that find the scene: the second one
    gives the list and the layout of the first again, and leaves one
    more widget that is in no layout and was not deleted, the spacer of
    the first. *)
Theorem OnRefresh_twice st (e : RenderEngine) (sc : Scene) (first : Widget) :
  engine (self st) = Some e ->
  SceneByName (world st) e (sceneName (self st)) = Some sc ->
  firstItem (self st) = Some first ->
  exists st1 st2,
    OnRefresh st = Ok st1 /\
    OnRefresh st1 = Ok st2 /\
    objs (self st2) = objs (self st1) /\
    layout (self st2) = layout (self st1) /\
    orphans (self st2) = orphans (self st1) ++ [SpacerWidget] /\
    world st2 = world st.
Proof.
  intros He Hsc Hfirst.
  exists (refreshed st first), (refreshed (refreshed st first) first).
  split; [eapply OnRefresh_alive; eassumption|].
  split; [eapply OnRefresh_alive; cbn; first [eassumption | reflexivity]|].
  unfold refreshed, refreshedPlugin, orphansAfterClear, members.
  cbn [self world calls objs layout orphans engine sceneName typeSingular].
  rewrite notDeleted_rows. repeat split.
Qed.

(** X6.  After a refresh that did not find the scene, a refresh that
    finds it again does not bring the buttons back: the message stays at
    index 0, followed by the rows and the spacer. *)
Theorem OnRefresh_after_destroyed st (e : RenderEngine) (sc : Scene)
        (w : World) :
  engine (self st) = Some e ->
  SceneByName (world st) e (sceneName (self st)) = None ->
  layout (self st) <> Some [] ->
  SceneByName w e (sceneName (self st)) = Some sc ->
  exists st1 st2,
    OnRefresh st = Ok st1 /\
    OnRefresh (set_world w st1) = Ok st2 /\
    objs (self st2) = map fst (Refresh (members (self st)) w) /\
    layout (self st2)
    = Some (QLabel (destroyedMsg (sceneName (self st)))
              :: map (rowFor (typeSingular (self st)))
                     (Refresh (members (self st)) w)
              ++ [SpacerWidget]).
Proof.
  intros He Hsc Hl Hsc'. apply firstItem_some in Hl.
  exists (destroyed st).
  exists (refreshed (set_world w (destroyed st))
                    (QLabel (destroyedMsg (sceneName (self st))))).
  split.
  - rewrite OnRefresh_cases, He, Hsc.
    now destruct (firstItem (self st)).
  - split; [|split; reflexivity].
    eapply OnRefresh_alive; cbn; try eassumption. reflexivity.
Qed.

(** *** LoadConfig: the other cases *)

(** X7.  A plugin without layout whose deletion was not requested, an
    engine and a scene that are found: [LoadConfig] shows the list.  The
    layout is the widget with the add and refresh buttons, one row per
    object that [Refresh] appends, and the spacer; nothing is warned
    about; the title is the one given, or "3D " and the singular of the
    type when none was given. *)
Theorem LoadConfig_shows_list (_pluginElem : option XMLElement) st
        (e : RenderEngine) (sc : Scene) :
  wellFormedConfig _pluginElem = true ->
  deleteLaterRequested (self st) = false ->
  layout (self st) = None ->
  let scene := expectedSceneName _pluginElem (sceneName (self st)) in
  let ts := typeSingular (self st) in
  rendering_engine (world st) (expectedEngineName _pluginElem) = Some e ->
  SceneByName (world st) e scene = Some sc ->
  exists st',
    LoadConfig _pluginElem st = Ok st' /\
    let appended := Refresh (mkMembers (Some e) scene) (world st) in
    objs (self st') = map fst appended /\
    layout (self st')
    = Some (ButtonsWidget [addButtonFor ts; refreshButtonFor ts]
              :: map (fun a => collapsibleFor ts (fst a) (snd a)) appended
              ++ [SpacerWidget]) /\
    calls st' = calls st ++ [CallOnRefresh; CallRefresh] /\
    title (self st')
    = (if title (self st) =? EmptyString
       then ("3D " ++ ts)%string
       else title (self st)) /\
    world st' = world st.
Proof.
  intros Hwf Hdl Hl scene ts He Hsc.
  rewrite (LoadConfig_cases _ _ Hwf). cbn zeta.
  change (engine (configured _pluginElem st))
    with (rendering_engine (world st) (expectedEngineName _pluginElem)).
  change (sceneName (configured _pluginElem st)) with scene.
  change (deleteLaterRequested (configured _pluginElem st))
    with (deleteLaterRequested (self st)).
  rewrite He, Hsc, Hdl.
  eexists. split.
  - eapply (OnRefresh_alive _ e sc (buttonsWidgetFor ts)); cbn.
    + exact He.
    + exact Hsc.
    + unfold firstItem; cbn. now rewrite Hl.
  - unfold refreshed, refreshedPlugin, members, configured; cbn.
    rewrite He. repeat split.
Qed.

Lemma canRefresh_layout p (e : RenderEngine) :
  engine p = Some e -> layout p <> Some [] -> canRefresh p = true.
Proof.
  unfold canRefresh. intros ->.
  destruct (layout p) as [[|w rest]|]; intros Hl;
    [now elim Hl | reflexivity | reflexivity].
Qed.

(** X8.  When the engine is found, [LoadConfig] leaves the plugin in a
    state from which the slots cannot fault: the engine is set and the
    layout, if one was installed, has an item.  This holds whether or not
    the scene is found and whether or not the deletion was requested. *)
Theorem LoadConfig_establishes_canRefresh
        (_pluginElem : option XMLElement) st (e : RenderEngine) :
  wellFormedConfig _pluginElem = true ->
  layout (self st) <> Some [] ->
  rendering_engine (world st) (expectedEngineName _pluginElem) = Some e ->
  exists st',
    LoadConfig _pluginElem st = Ok st' /\
    engine (self st') = Some e /\
    canRefresh (self st') = true.
Proof.
  intros Hwf Hl He.
  assert (Hcan : canRefresh (configured _pluginElem st) = true)
    by (apply (canRefresh_layout _ e); [exact He | exact Hl]).
  rewrite (LoadConfig_cases _ _ Hwf). cbn zeta.
  change (engine (configured _pluginElem st))
    with (rendering_engine (world st) (expectedEngineName _pluginElem)).
  rewrite He.
  destruct (SceneByName (world st) e
              (sceneName (configured _pluginElem st))) as [sc|];
    destruct (deleteLaterRequested (configured _pluginElem st)).
  - eexists. split; [reflexivity|]. split; [exact He | exact Hcan].
  - destruct (OnRefresh_ok
                (mkState (configured _pluginElem st) (world st) (calls st))
                Hcan)
      as (st' & Hrun & Hcan' & Hsame & _).
    exists st'. split; [exact Hrun|]. split; [|exact Hcan'].
    destruct Hsame as (_ & _ & _ & Heng & _). rewrite Heng. exact He.
  - eexists. split; [reflexivity|]. split; [exact He | exact Hcan].
  - eexists. split; [reflexivity|].
    unfold with_self, setLayout, canRefresh; cbn.
    destruct (layout (self st)) as [[|w rest]|] eqn:El;
      [now elim Hl | |]; cbn; rewrite ?El, ?He; cbn; auto.
Qed.

(** X9.  On a plugin without layout, or with a layout that has an item,
    [LoadConfig] either returns or dereferences the null text of an
    element, and it does the latter exactly when an element that it reads
    ([<engine>], [<scene>], the first [<pose>] or [<color>] of an
    [<insert>]) does not start with a text. *)
Theorem LoadConfig_returns_or_null_text
        (_pluginElem : option XMLElement) st :
  layout (self st) <> Some [] ->
  (wellFormedConfig _pluginElem = true /\
   exists st', LoadConfig _pluginElem st = Ok st') \/
  (wellFormedConfig _pluginElem = false /\
   LoadConfig _pluginElem st = Fault NullText).
Proof.
  intros Hl. destruct (wellFormedConfig _pluginElem) eqn:Hwf.
  - left. split; [reflexivity|].
    destruct (LoadConfig_returns _pluginElem st Hwf Hl) as (st' & Hrun & _).
    now exists st'.
  - right. split; [reflexivity|].
    unfold LoadConfig.
    now rewrite (LoadConfig_configuration_fault _ _ Hwf).
Qed.

(** *** OnDelete and OnAdd: the outcome *)

Lemma OnDelete_loop_no_match (objName : string) (rest : list ObjectPtr) :
  forall st,
    (forall o, In o rest -> Name o <> objName) ->
    OnDelete_loop objName rest st = Ok st.
Proof.
  induction rest as [|o rest IH]; intros st Hno; [reflexivity|].
  cbn [OnDelete_loop].
  destruct (String.eqb_spec (Name o) objName) as [Heq|Hneq].
  - exfalso. apply (Hno o); [now left | exact Heq].
  - cbn [negb]. apply IH. intros o' Ho'. apply Hno. now right.
Qed.

Lemma OnDelete_loop_skip (objName : string) (pre : list ObjectPtr) :
  forall (rest : list ObjectPtr) st,
    (forall o, In o pre -> Name o <> objName) ->
    OnDelete_loop objName (pre ++ rest) st = OnDelete_loop objName rest st.
Proof.
  induction pre as [|o pre IH]; intros rest st Hno; [reflexivity|].
  cbn [app OnDelete_loop].
  destruct (String.eqb_spec (Name o) objName) as [Heq|Hneq].
  - exfalso. apply (Hno o); [now left | exact Heq].
  - cbn [negb]. apply IH. intros o' Ho'. apply Hno. now right.
Qed.

(** X10.  A delete signal that names no object of the list does nothing:
    [Delete] is not called, no refresh is made, the state is the one
    there was. *)
Theorem OnDelete_no_match (sender : QObject) st :
  (forall o, In o (objs (self st)) -> Name o <> objNameOf sender) ->
  OnDelete sender st = Ok st.
Proof.
  intros Hno. unfold OnDelete. now apply OnDelete_loop_no_match.
Qed.

(** X11.  What the list is once [Delete] has accepted the first object of
    the sender's name.  If the scene is still there, the list is the one
    that [Refresh] gives in the world that [Delete] left, whatever was
    erased: an object that the derived plugin still reports is still
    listed.  If the scene is gone, the list is the former one without the
    object, and the layout holds the message alone. *)
Theorem OnDelete_accepted_result (sender : QObject) st
        (pre : list ObjectPtr) (obj : ObjectPtr) (post : list ObjectPtr)
        (w : World) (e : RenderEngine) :
  objs (self st) = pre ++ obj :: post ->
  (forall o, In o pre -> Name o <> objNameOf sender) ->
  Name obj = objNameOf sender ->
  Delete (members (self st)) obj (world st) = (true, w) ->
  engine (self st) = Some e ->
  layout (self st) <> Some [] ->
  (forall sc : Scene,
      SceneByName w e (sceneName (self st)) = Some sc ->
      exists st',
        OnDelete sender st = Ok st' /\
        objs (self st') = map fst (Refresh (members (self st)) w) /\
        world st' = w /\
        calls st'
        = calls st ++ [CallDelete obj; CallOnRefresh; CallRefresh]) /\
  (SceneByName w e (sceneName (self st)) = None ->
   exists st',
     OnDelete sender st = Ok st' /\
     objs (self st') = remove ObjectPtr_eq_dec obj (objs (self st)) /\
     layout (self st')
     = Some [QLabel (destroyedMsg (sceneName (self st)))] /\
     world st' = w /\
     calls st' = calls st ++ [CallDelete obj; CallOnRefresh]).
Proof.
  intros Hobjs Hpre Hname Hdel He Hl.
  apply firstItem_some in Hl.
  destruct (firstItem (self st)) as [first|] eqn:Hfirst; [|now elim Hl].
  assert (Hrun : OnDelete sender st
                 = OnRefresh
                     (mkState (set_objs (remove ObjectPtr_eq_dec obj
                                                (objs (self st))) (self st))
                              w (calls st ++ [CallDelete obj]))).
  { unfold OnDelete. rewrite Hobjs at 1.
    rewrite OnDelete_loop_skip by exact Hpre.
    cbn [OnDelete_loop]. rewrite Hname, String.eqb_refl. cbn [negb].
    rewrite Hdel. reflexivity. }
  rewrite Hrun, OnRefresh_cases.
  cbn [self world calls]. 
  assert (Hfirst' : firstItem (set_objs (remove ObjectPtr_eq_dec obj
                                                (objs (self st))) (self st))
                    = Some first) by exact Hfirst.
  rewrite Hfirst'.
  change (engine (set_objs (remove ObjectPtr_eq_dec obj (objs (self st)))
                           (self st)))
    with (engine (self st)).
  change (sceneName (set_objs (remove ObjectPtr_eq_dec obj (objs (self st)))
                              (self st)))
    with (sceneName (self st)).
  rewrite He. split.
  - intros sc Hsc. rewrite Hsc. eexists. split; [reflexivity|].
    unfold refreshed; cbn. rewrite <- app_assoc. auto.
  - intros Hsc. rewrite Hsc. eexists. split; [reflexivity|].
    unfold destroyed; cbn. rewrite <- app_assoc. auto.
Qed.

(** X12.  Names that are all different: a click on the delete button
    that [AppendObj] made for an object of the list gives that very
    object to [Delete], and no other.  If [Delete] refuses, nothing else
    happens. *)
Theorem click_delete_button_unique_names (typeSingular : string)
        (obj : ObjectPtr) st :
  NoDup (map Name (objs (self st))) ->
  In obj (objs (self st)) ->
  click (deleteButtonFor typeSingular obj) st
  = let (deleted, w) := Delete (members (self st)) obj (world st) in
    if deleted
    then OnRefresh
           (mkState (set_objs (remove ObjectPtr_eq_dec obj (objs (self st)))
                              (self st))
                    w (calls st ++ [CallDelete obj]))
    else Ok (mkState (self st) w (calls st ++ [CallDelete obj])).
Proof.
  intros Hnodup Hin.
  destruct (in_split _ _ Hin) as (pre & post & Hobjs).
  rewrite Hobjs, map_app in Hnodup. cbn [map] in Hnodup.
  pose proof (NoDup_remove_2 _ _ _ Hnodup) as Hnot.
  assert (Hpre : forall o, In o pre -> Name o <> Name obj).
  { intros o Ho Heq. apply Hnot. apply in_or_app. left.
    rewrite <- Heq. now apply in_map. }
  assert (Hpost : forall o, In o post -> Name o <> Name obj).
  { intros o Ho Heq. apply Hnot. apply in_or_app. right.
    rewrite <- Heq. now apply in_map. }
  unfold click, OnDelete; cbn [btn_clicked deleteButtonFor senderOf
                               objNameOf property_objName btn_objName].
  rewrite Hobjs at 1.
  rewrite OnDelete_loop_skip by exact Hpre.
  cbn [OnDelete_loop]. rewrite String.eqb_refl. cbn [negb].
  destruct (Delete (members (self st)) obj (world st)) as [[|] w];
    cbn [negb].
  - reflexivity.
  - now rewrite OnDelete_loop_no_match.
Qed.

(** X13.  Two objects of one name: a click on the delete button made for
    the later one gives the earlier one to [Delete] first, and when
    [Delete] accepts it, it is the earlier one that is erased; the later
    one stays in the list that is handed to the refresh. *)
Theorem click_delete_button_shared_name (typeSingular : string)
        (pre : list ObjectPtr) (earlier : ObjectPtr)
        (post : list ObjectPtr) (later : ObjectPtr) (w : World) st :
  objs (self st) = pre ++ earlier :: post ->
  (forall o, In o pre -> Name o <> Name later) ->
  Name earlier = Name later ->
  In later post ->
  earlier <> later ->
  Delete (members (self st)) earlier (world st) = (true, w) ->
  click (deleteButtonFor typeSingular later) st
  = OnRefresh
      (mkState (set_objs (remove ObjectPtr_eq_dec earlier (objs (self st)))
                         (self st))
               w (calls st ++ [CallDelete earlier])) /\
  In later (remove ObjectPtr_eq_dec earlier (objs (self st))) /\
  ~ In earlier (remove ObjectPtr_eq_dec earlier (objs (self st))).
Proof.
  intros Hobjs Hpre Hname Hin Hneq Hdel. split; [|split].
  - unfold click, OnDelete; cbn [btn_clicked deleteButtonFor senderOf
                                 objNameOf property_objName btn_objName].
    rewrite Hobjs at 1.
    rewrite OnDelete_loop_skip by exact Hpre.
    cbn [OnDelete_loop]. rewrite Hname, String.eqb_refl. cbn [negb].
    now rewrite Hdel.
  - apply in_in_remove; [now apply not_eq_sym|].
    rewrite Hobjs. apply in_or_app. right. now right.
  - apply remove_In.
Qed.

(** X14.  A click on the add button when the scene is gone once [Add]
    has run: [Add] is called all the same and the world is the one it
    leaves; then the layout holds the message alone, [Refresh] is not
    called and the list is not touched. *)
Theorem OnAdd_destroyed_scene st (e : RenderEngine) :
  let added := Add (members (self st)) (world st) in
  engine (self st) = Some e ->
  layout (self st) <> Some [] ->
  SceneByName added e (sceneName (self st)) = None ->
  exists st',
    OnAdd st = Ok st' /\
    world st' = added /\
    calls st' = calls st ++ [CallAdd; CallOnRefresh] /\
    layout (self st') = Some [QLabel (destroyedMsg (sceneName (self st)))] /\
    objs (self st') = objs (self st).
Proof.
  intros added He Hl Hsc. apply firstItem_some in Hl.
  unfold OnAdd. rewrite OnRefresh_cases.
  cbn [record set_world self world calls]. fold added.
  rewrite He, Hsc.
  destruct (firstItem (self st)) as [first|]; [|now elim Hl].
  eexists. split; [reflexivity|].
  unfold destroyed; cbn. rewrite <- app_assoc. auto.
Qed.

(** *** AppendObj: the list and the rows *)

Lemma rowTitles_app (l l' : QLayout) :
  rowTitles (l ++ l') = rowTitles l ++ rowTitles l'.
Proof.
  induction l as [|w l IH]; [reflexivity|].
  destruct w; simpl; now rewrite ?IH.
Qed.

Lemma rowTitles_rows (typeSingular : string)
      (appended : list (ObjectPtr * list PropertyWidget)) :
  rowTitles (map (rowFor typeSingular) appended)
  = map Name (map fst appended).
Proof.
  induction appended as [|a appended IH]; [reflexivity|].
  simpl. now rewrite IH.
Qed.

(** X15.  [AppendObj] keeps the list and the rows in step.  On a plugin
    with a layout whose rows bear, in order, the names of the objects of
    the list, any run of [AppendObj] calls returns, puts the objects at
    the end of the list in the order of the calls, and the rows are again
    the names of the objects of the list.  Without a layout the first
    call dereferences the null layout. *)
Theorem AppendObj_keeps_rows_in_step
        (appended : list (ObjectPtr * list PropertyWidget)) st :
  (forall l,
      layout (self st) = Some l ->
      rowTitles l = map Name (objs (self st)) ->
      exists st' l',
        AppendObjs appended st = Ok st' /\
        objs (self st') = objs (self st) ++ map fst appended /\
        layout (self st') = Some l' /\
        rowTitles l' = map Name (objs (self st')) /\
        length l' = (length l + length appended)%nat) /\
  (layout (self st) = None ->
   forall (obj : ObjectPtr) (props : list PropertyWidget),
     AppendObj obj props st = Fault NullLayout /\
     AppendObjs ((obj, props) :: appended) st = Fault NullLayout).
Proof.
  split.
  - intros l Hl Hstep.
    rewrite (AppendObjs_with_layout appended st l Hl).
    eexists; eexists. split; [reflexivity|].
    cbn. split; [reflexivity|]. split; [reflexivity|]. split.
    + now rewrite rowTitles_app, rowTitles_rows, map_app, Hstep.
    + now rewrite length_app, length_map.
  - intros Hl obj props.
    assert (Hone : AppendObj obj props st = Fault NullLayout).
    { unfold AppendObj. cbn. now rewrite Hl. }
    split; [exact Hone|]. cbn [AppendObjs]. now rewrite Hone.
Qed.
End Slots.

(** ** The properties on the grid plugin *)

#[local] Existing Instance Example.rendering.
#[local] Existing Instance Example.gui.
#[local] Existing Instance Example.hooks.
#[local] Existing Instance Example.math.

Import Example.

Example LoadConfig_loads :
  LoadConfig (Some config) (start false world0) = Ok loaded.
Proof. reflexivity. Qed.

Example LoadConfig_without_text :
  LoadConfig (Some noText) (start false world0) = Fault NullText.
Proof. reflexivity. Qed.

Example OnRefresh_scene_destroyed :
  OnRefresh (mkState loadedPlugin deadWorld [])
  = Ok (destroyed (mkState loadedPlugin deadWorld [])).
Proof. reflexivity. Qed.

(** C2.  The configuration [config] has two [<insert>] children, the
    engine and the scene are found and the scene holds no visual.
    [LoadConfig] reads the two poses and colours, and returns with the
    scene as it was: no visual in it, no object in the list, no row in
    the layout. *)
Theorem LoadConfig_inserts_nothing :
  length (insertElements (Children config)) = 2 /\
  (exists p,
      LoadConfig_configuration (Some config) (newPlugin false)
      = Ok ("ogre",
            [mkObjInfo (mkPose3d 1 2 3 0 0 0)%Q kDefaultColor;
             mkObjInfo kDefaultPose (mkColor 1 0 0 1)%Q],
            p)) /\
  rendering_engine emptyWorld "ogre" = Some tt /\
  SceneByName emptyWorld tt "scene" = Some tt /\
  exists st',
    LoadConfig (Some config) (start false emptyWorld) = Ok st' /\
    world st' = emptyWorld /\
    visuals (world st') = [] /\
    objs (self st') = [] /\
    layout (self st') = Some [buttonsWidgetFor "grid"; SpacerWidget].
Proof.
  split; [reflexivity|]. split; [eexists; reflexivity|].
  split; [reflexivity|]. split; [reflexivity|].
  eexists. split; [reflexivity|]. cbn. auto.
Qed.

Lemma OnRefresh_clear_loop_witness :
  (length (map (rowFor "grid") (gridRefresh world0) ++ [SpacerWidget]) < 5)%nat
  /\ OnRefresh_clear 5 (buttonsWidgetFor "grid"
                          :: map (rowFor "grid") (gridRefresh world0)
                          ++ [SpacerWidget]) []
     = Ok ([buttonsWidgetFor "grid"], [SpacerWidget])
  /\ (0 < 1)%nat
  /\ OnRefresh_clear 1 [] [] = Fault NullLayoutItem
  /\ layout (self emptied) = Some []
  /\ OnRefresh emptied = Fault NullLayoutItem.
Proof.
  destruct (@OnRefresh_clear_loop rendering gui hooks)
    as (Henough & _ & _ & Hempty & Hrefresh).
  split; [simpl; lia|].
  split;
    [exact (Henough (buttonsWidgetFor "grid")
                    (map (rowFor "grid") (gridRefresh world0)
                     ++ [SpacerWidget])
                    [] 5%nat (Nat.lt_succ_diag_r 4))|].
  split; [lia|].
  split; [exact (proj2 (Hempty [] 1%nat Nat.lt_0_1))|].
  split; [reflexivity|].
  exact (Hrefresh emptied eq_refl).
Defined.

Lemma OnRefresh_rebuilds_rows_witness :
  engine (self loaded) = Some tt /\
  SceneByName (world loaded) tt (sceneName (self loaded)) = Some tt /\
  firstItem (self loaded) = Some (buttonsWidgetFor "grid") /\
  exists st',
    OnRefresh loaded = Ok st' /\
    objs (self st') = [1; 2; 3] /\
    layout (self st')
    = Some (buttonsWidgetFor "grid"
              :: map (rowFor "grid") (gridRefresh world0)
              ++ [SpacerWidget]).
Proof.
  split; [reflexivity|]. split; [reflexivity|]. split; [reflexivity|].
  destruct (OnRefresh_rebuilds_rows loaded tt tt (buttonsWidgetFor "grid")
              eq_refl eq_refl eq_refl)
    as (st' & Hrun & Hobjs & Hlayout & _).
  exists st'. split; [exact Hrun|]. split; [exact Hobjs | exact Hlayout].
Defined.

Lemma LoadConfig_engine_and_scene_names_witness :
  wellFormedConfig (Some bothNames) = true /\
  layout (self (start false world0)) <> Some [] /\
  exists (engineName : string) (objInfos : list ObjInfo) p',
    LoadConfig_configuration (Some bothNames) (self (start false world0))
    = Ok (engineName, objInfos, p') /\
    engineName = "gazebo" /\
    sceneName p' = "other" /\
    exists st',
      LoadConfig (Some bothNames) (start false world0) = Ok st' /\
      engine (self st') = rendering_engine world0 "gazebo" /\
      sceneName (self st') = "other".
Proof.
  split; [reflexivity|]. split; [discriminate|].
  destruct (LoadConfig_engine_and_scene_names
              (Some bothNames) (start false world0) eq_refl)
    as (engineName & objInfos & p' & Hcfg & Hengine & Hscene & Hrun).
  cbn in Hengine, Hscene.
  injection Hengine as Hengine. injection Hscene as Hscene.
  exists engineName, objInfos, p'.
  split; [exact Hcfg|]. split; [now rewrite <- Hengine|].
  split; [now rewrite <- Hscene|].
  destruct Hrun as (st' & Hrun & He & Hs); [discriminate|].
  exists st'. split; [exact Hrun|].
  rewrite He, Hs, <- Hengine, <- Hscene. split; reflexivity.
Defined.

Lemma LoadConfig_objInfos_witness :
  wellFormedConfig (Some config) = true /\
  exists (engineName : string) (objInfos : list ObjInfo) p',
    LoadConfig_configuration (Some config) (newPlugin false)
    = Ok (engineName, objInfos, p') /\
    map pose objInfos = [(mkPose3d 1 2 3 0 0 0)%Q; kDefaultPose] /\
    map color objInfos = [kDefaultColor; (mkColor 1 0 0 1)%Q].
Proof.
  split; [reflexivity|].
  destruct (LoadConfig_objInfos (Some config) (newPlugin false) eq_refl)
    as (engineName & objInfos & p' & Hcfg & Hall).
  exists engineName, objInfos, p'. split; [exact Hcfg|].
  cbn in Hall.
  inversion Hall as [|ins1 info1 rest1 infos1 H1 Hall1]; subst.
  inversion Hall1 as [|ins2 info2 rest2 infos2 H2 Hall2]; subst.
  inversion Hall2; subst.
  cbn in H1, H2.
  destruct H1 as ((t1 & Ht1 & Hpose1) & Hcolor1).
  destruct H2 as (Hpose2 & (t2 & Ht2 & Hcolor2)).
  injection Ht1 as <-. injection Ht2 as <-.
  cbn [map]. rewrite Hpose1, Hpose2, Hcolor1, Hcolor2.
  split; reflexivity.
Defined.


Lemma LoadConfig_error_label_witness :
  wellFormedConfig (Some otherEngine) = true /\
  deleteLaterRequested (self (start false world0)) = false /\
  layout (self (start false world0)) = None /\
  rendering_engine world0 "gazebo" = None /\
  exists st',
    LoadConfig (Some otherEngine) (start false world0) = Ok st' /\
    layout (self st')
    = Some [QLabel ("Engine " ++ dquote ++ "gazebo" ++ dquote ++
                    " not supported, plugin won't work.")%string].
Proof.
  split; [reflexivity|]. split; [reflexivity|]. split; [reflexivity|].
  split; [reflexivity|].
  destruct (LoadConfig_error_label (Some otherEngine) (start false world0)
              eq_refl eq_refl eq_refl
              ("Engine " ++ dquote ++ "gazebo" ++ dquote ++
               " not supported, plugin won't work.")%string
              (or_introl (conj eq_refl eq_refl)))
    as (st' & Hrun & Hlayout & _).
  exists st'. split; [exact Hrun | exact Hlayout].
Defined.

Lemma OnChange_first_match_witness :
  objs (self loaded) = [1] ++ 2 :: [3] /\
  (forall o, In o [1] -> gridName o <> "grid2") /\
  gridName 2 = "grid2" /\
  OnChange (mkQObject "pose" (Some "grid2")) 7 loaded
  = mkState loadedPlugin (gridChange 2 "pose" 7 world0)
            [CallOnRefresh; CallRefresh; CallChange 2 "pose" 7].
Proof.
  assert (Hpre : forall o, In o [1] -> gridName o <> "grid2")
    by (intros o [<-|[]]; discriminate).
  split; [reflexivity|]. split; [exact Hpre|]. split; [reflexivity|].
  exact (proj1 (OnChange_first_match (mkQObject "pose" (Some "grid2")) 7
                                     loaded)
               [1] 2 [3] eq_refl Hpre eq_refl).
Defined.

Lemma OnDelete_first_match_witness :
  let sender := mkQObject "deleteButton" (Some "grid2") in
  (* the first grid2 is visual 2, and it is locked *)
  objs (self loaded) = [1] ++ 2 :: [3] /\
  (forall o, In o [1] -> gridName o <> "grid2") /\
  gridName 2 = "grid2" /\
  OnDelete sender loaded
  = OnDelete_loop "grid2" [3]
      (mkState loadedPlugin world0
               [CallOnRefresh; CallRefresh; CallDelete 2]) /\
  (* the second one is visual 3 *)
  objs (self loaded) = [1; 2] ++ 3 :: [] /\
  deleteRefused (members loadedPlugin) "grid2" [1; 2] world0 = true /\
  gridName 3 = "grid2" /\
  gridDelete 3 world0 = (true, mkGridWorld true [1; 2] []) /\
  OnDelete sender loaded
  = OnRefresh (mkState (set_objs [1; 2] loadedPlugin)
                       (mkGridWorld true [1; 2] [])
                       [CallOnRefresh; CallRefresh;
                        CallDelete 2; CallDelete 3]) /\
  (* without visual 3 in the list, every grid2 is refused *)
  deleteRefused (members loadedPlugin) "grid2" [1; 2] world0 = true /\
  (exists w cs,
      OnDelete sender (mkState (set_objs [1; 2] loadedPlugin) world0 [])
      = Ok (mkState (set_objs [1; 2] loadedPlugin) w cs)) /\
  (* the scene is found once visual 3 is deleted: the list is rebuilt *)
  engine (self loaded) = Some tt /\
  firstItem (self loaded) = Some (buttonsWidgetFor "grid") /\
  (exists st',
      OnDelete sender loaded = Ok st' /\
      world st' = mkGridWorld true [1; 2] [] /\
      objs (self st') = [1; 2] /\
      layout (self st')
      = Some (buttonsWidgetFor "grid"
                :: map (rowFor "grid")
                       (gridRefresh (mkGridWorld true [1; 2] []))
                ++ [SpacerWidget])) /\
  (* the scene is lost: visual 3 is erased and nothing is rebuilt *)
  gridDelete 3 destroyedWorld = (true, mkGridWorld false [1; 2] []) /\
  (exists st',
      OnDelete sender sceneLost = Ok st' /\
      objs (self st') = [1; 2] /\
      layout (self st') = Some [QLabel (destroyedMsg "scene")]).
Proof.
  intros sender.
  assert (Hpre : forall o, In o [1] -> gridName o <> "grid2")
    by (intros o [<-|[]]; discriminate).
  pose proof (OnDelete_first_match sender loaded) as Hloaded.
  cbv zeta in Hloaded.
  destruct Hloaded as (_ & Hfirst & Haccepted & _ & Houtcome).
  pose proof (OnDelete_first_match sender sceneLost) as Hlost.
  cbv zeta in Hlost. destruct Hlost as (_ & _ & _ & _ & Hlost).
  pose proof (Hfirst [1] 2 [3] eq_refl Hpre eq_refl) as Hlocked.
  pose proof (proj1 (Haccepted [1; 2] 3 [] (mkGridWorld true [1; 2] [])
                               eq_refl eq_refl eq_refl eq_refl))
    as Hdeleted.
  pose proof (OnDelete_first_match sender
                (mkState (set_objs [1; 2] loadedPlugin) world0 []))
    as Hshort.
  cbv zeta in Hshort. destruct Hshort as (_ & _ & _ & Hrefused & _).
  destruct (Hrefused eq_refl) as (w & cs & Hrun & _).
  vm_compute in Hlocked, Hdeleted.
  split; [reflexivity|]. split; [exact Hpre|]. split; [reflexivity|].
  split; [vm_compute; exact Hlocked|].
  split; [reflexivity|]. split; [reflexivity|]. split; [reflexivity|].
  split; [reflexivity|].
  split; [vm_compute; exact Hdeleted|].
  split; [reflexivity|].
  split; [exists w, ([] ++ cs); exact Hrun|].
  split; [reflexivity|]. split; [reflexivity|].
  split.
  { destruct (Houtcome [1; 2] 3 [] (mkGridWorld true [1; 2] []) tt
                       (buttonsWidgetFor "grid")
                       eq_refl eq_refl eq_refl eq_refl eq_refl eq_refl)
      as (st' & Hrun' & Hworld & Hobjs & Hlayout & _).
    exists st'. split; [exact Hrun'|]. split; [exact Hworld|].
    split; [exact Hobjs | exact Hlayout]. }
  split; [reflexivity|].
  destruct (Hlost [1; 2] 3 [] (mkGridWorld false [1; 2] []) tt
                  (buttonsWidgetFor "grid")
                  eq_refl eq_refl eq_refl eq_refl eq_refl eq_refl)
    as (st' & Hrun' & _ & Hobjs & Hlayout & _).
  exists st'. split; [exact Hrun'|]. split; [exact Hobjs | exact Hlayout].
Defined.

Lemma OnAdd_then_refresh_witness :
  engine (self loaded) = Some tt /\
  firstItem (self loaded) = Some (buttonsWidgetFor "grid") /\
  In (4, ["pose"; "color"]) (gridRefresh (gridAdd world0)) /\
  ~ In 4 (objs (self loaded)) /\
  (exists st',
      OnAdd loaded = Ok st' /\
      world st' = gridAdd world0 /\
      calls st' = calls loaded ++ [CallAdd; CallOnRefresh; CallRefresh] /\
      objs (self st') = [1; 2; 3; 4] /\
      In 4 (objs (self st'))) /\
  engine (self sceneLost) = Some tt /\
  firstItem (self sceneLost) = Some (buttonsWidgetFor "grid") /\
  (exists st',
      OnAdd sceneLost = Ok st' /\
      world st' = gridAdd destroyedWorld /\
      calls st' = [CallAdd; CallOnRefresh] /\
      objs (self st') = [1; 2; 3]).
Proof.
  split; [reflexivity|]. split; [reflexivity|].
  assert (Hnew : In (4, ["pose"; "color"]) (gridRefresh (gridAdd world0)))
    by (cbn; auto).
  split; [exact Hnew|].
  split; [cbn; intros [H|[H|[H|[]]]]; discriminate|].
  pose proof (OnAdd_then_refresh loaded) as Hadd.
  cbv zeta in Hadd. destruct Hadd as (_ & _ & Hadd).
  pose proof (OnAdd_then_refresh sceneLost) as Hlost.
  cbv zeta in Hlost. destruct Hlost as (_ & _ & Hlost).
  split.
  { destruct (Hadd tt (buttonsWidgetFor "grid") eq_refl eq_refl)
      as (st' & Hrun & Hworld & Hcalls & Hobjs & _ & Hin).
    exists st'. split; [exact Hrun|]. split; [exact Hworld|].
    split; [exact Hcalls|]. split; [exact Hobjs|].
    apply Hin. exists ["pose"; "color"]. exact Hnew. }
  split; [reflexivity|]. split; [reflexivity|].
  destruct (Hlost tt (buttonsWidgetFor "grid") eq_refl eq_refl)
    as (st' & Hrun & Hworld & Hcalls & Hobjs & _).
  exists st'. split; [exact Hrun|]. split; [exact Hworld|].
  split; [exact Hcalls | exact Hobjs].
Defined.

(** ** The further properties on the grid plugin *)

Example session_runs : deliverAll session loaded = Ok afterSession.
Proof. vm_compute. reflexivity. Qed.

Example session_result :
  objs (self afterSession) = [1; 2; 4] /\
  world afterSession
  = mkGridWorld true [1; 2; 4] [(1, "pose", 5)] /\
  calls afterSession
  = [CallOnRefresh; CallRefresh;
     CallAdd; CallOnRefresh; CallRefresh;
     CallDelete 2; CallDelete 3; CallOnRefresh; CallRefresh;
     CallChange 1 "pose" 5;
     CallOnRefresh; CallRefresh].
Proof. vm_compute. repeat split. Qed.

Lemma signals_keep_configuration_witness :
  deliverAll session loaded = Ok afterSession /\
  title (self afterSession) = "3D grid" /\
  sceneName (self afterSession) = "scene" /\
  engine (self afterSession) = Some tt.
Proof.
  assert (Hrun : deliverAll session loaded = Ok afterSession)
    by (vm_compute; reflexivity).
  split; [exact Hrun|].
  destruct (signals_keep_configuration session loaded afterSession Hrun)
    as (Htitle & _ & Hscene & Hengine & _).
  split; [exact Htitle|]. split; [exact Hscene | exact Hengine].
Defined.

Lemma signals_never_fault_witness :
  canRefresh (self loaded) = true /\
  exists st', deliverAll session loaded = Ok st'.
Proof.
  split; [reflexivity|].
  destruct (signals_never_fault session loaded eq_refl) as (st' & Hrun & _).
  exists st'. exact Hrun.
Defined.

Lemma OnRefresh_destroyed_scene_witness :
  engine (self gone) = Some tt /\
  SceneByName (world gone) tt (sceneName (self gone)) = None /\
  layout (self gone) <> Some [] /\
  exists st',
    OnRefresh gone = Ok st' /\
    objs (self st') = [1; 2; 3] /\
    calls st' = [CallOnRefresh].
Proof.
  assert (Hl : layout (self gone) <> Some []) by discriminate.
  split; [reflexivity|]. split; [reflexivity|]. split; [exact Hl|].
  destruct (OnRefresh_destroyed_scene gone tt eq_refl eq_refl Hl)
    as (st' & Hrun & _ & Hobjs & Hcalls & _).
  exists st'. split; [exact Hrun|]. split; [exact Hobjs | exact Hcalls].
Defined.

Lemma OnRefresh_null_engine_witness :
  engine (self (start false world0)) = None /\
  layout (self (start false world0)) <> Some [] /\
  OnRefresh (start false world0) = Fault NullEngine /\
  OnAdd (start false world0) = Fault NullEngine.
Proof.
  assert (Hl : layout (self (start false world0)) <> Some [])
    by discriminate.
  split; [reflexivity|]. split; [exact Hl|].
  exact (OnRefresh_null_engine (start false world0) eq_refl Hl).
Defined.

Lemma OnRefresh_twice_witness :
  engine (self loaded) = Some tt /\
  SceneByName (world loaded) tt (sceneName (self loaded)) = Some tt /\
  firstItem (self loaded) = Some (buttonsWidgetFor "grid") /\
  exists st1 st2,
    OnRefresh loaded = Ok st1 /\
    OnRefresh st1 = Ok st2 /\
    layout (self st2) = layout (self st1) /\
    orphans (self st2) = orphans (self st1) ++ [SpacerWidget].
Proof.
  split; [reflexivity|]. split; [reflexivity|]. split; [reflexivity|].
  destruct (OnRefresh_twice loaded tt tt (buttonsWidgetFor "grid")
              eq_refl eq_refl eq_refl)
    as (st1 & st2 & Hrun1 & Hrun2 & _ & Hlayout & Horphans & _).
  exists st1, st2. auto.
Defined.

Lemma OnRefresh_after_destroyed_witness :
  engine (self gone) = Some tt /\
  SceneByName (world gone) tt (sceneName (self gone)) = None /\
  layout (self gone) <> Some [] /\
  SceneByName world0 tt (sceneName (self gone)) = Some tt /\
  exists st1 st2,
    OnRefresh gone = Ok st1 /\
    OnRefresh (set_world world0 st1) = Ok st2 /\
    objs (self st2) = [1; 2; 3].
Proof.
  assert (Hl : layout (self gone) <> Some []) by discriminate.
  split; [reflexivity|]. split; [reflexivity|]. split; [exact Hl|].
  split; [reflexivity|].
  destruct (OnRefresh_after_destroyed gone tt tt world0
              eq_refl eq_refl Hl eq_refl)
    as (st1 & st2 & Hrun1 & Hrun2 & Hobjs & _).
  exists st1, st2. split; [exact Hrun1|]. split; [exact Hrun2 | exact Hobjs].
Defined.

Lemma LoadConfig_shows_list_witness :
  wellFormedConfig (Some config) = true /\
  deleteLaterRequested (self (start false world0)) = false /\
  layout (self (start false world0)) = None /\
  rendering_engine world0 (expectedEngineName (Some config)) = Some tt /\
  SceneByName world0 tt (expectedSceneName (Some config) "scene") = Some tt /\
  exists st',
    LoadConfig (Some config) (start false world0) = Ok st' /\
    objs (self st') = [1; 2; 3] /\
    title (self st') = "3D grid".
Proof.
  split; [reflexivity|]. split; [reflexivity|]. split; [reflexivity|].
  split; [reflexivity|]. split; [reflexivity|].
  pose proof (LoadConfig_shows_list (Some config) (start false world0) tt tt
                eq_refl eq_refl eq_refl eq_refl eq_refl) as Hshow.
  destruct Hshow as (st' & Hrun & Hobjs & _ & _ & Htitle & _).
  exists st'. split; [exact Hrun|]. split; [exact Hobjs | exact Htitle].
Defined.

Lemma LoadConfig_establishes_canRefresh_witness :
  wellFormedConfig (Some otherScene) = true /\
  layout (self (start false world0)) <> Some [] /\
  rendering_engine world0 (expectedEngineName (Some otherScene)) = Some tt /\
  exists st',
    LoadConfig (Some otherScene) (start false world0) = Ok st' /\
    canRefresh (self st') = true.
Proof.
  assert (Hl : layout (self (start false world0)) <> Some [])
    by discriminate.
  split; [reflexivity|]. split; [exact Hl|]. split; [reflexivity|].
  destruct (LoadConfig_establishes_canRefresh
              (Some otherScene) (start false world0) tt eq_refl Hl eq_refl)
    as (st' & Hrun & _ & Hcan).
  exists st'. split; [exact Hrun | exact Hcan].
Defined.

Lemma LoadConfig_returns_or_null_text_witness :
  layout (self (start false world0)) <> Some [] /\
  LoadConfig (Some noText) (start false world0) = Fault NullText /\
  exists st', LoadConfig (Some config) (start false world0) = Ok st'.
Proof.
  assert (Hl : layout (self (start false world0)) <> Some [])
    by discriminate.
  split; [exact Hl|]. split.
  - destruct (LoadConfig_returns_or_null_text
                (Some noText) (start false world0) Hl)
      as [[Hwf _] | [_ Hfault]]; [discriminate Hwf | exact Hfault].
  - destruct (LoadConfig_returns_or_null_text
                (Some config) (start false world0) Hl)
      as [[_ Hrun] | [Hwf _]]; [exact Hrun | discriminate Hwf].
Defined.

Lemma OnDelete_no_match_witness :
  (forall o, In o (objs (self loaded)) ->
             gridName o <> objNameOf (mkQObject "deleteButton" None)) /\
  OnDelete (mkQObject "deleteButton" None) loaded = Ok loaded.
Proof.
  assert (Hno : forall o, In o (objs (self loaded)) ->
                          gridName o
                          <> objNameOf (mkQObject "deleteButton" None))
    by (intros o [<-|[<-|[<-|[]]]]; discriminate).
  split; [exact Hno|].
  exact (OnDelete_no_match (mkQObject "deleteButton" None) loaded Hno).
Defined.

Lemma OnDelete_accepted_result_witness :
  let sender := mkQObject "deleteButton" (Some "grid1") in
  objs (self loaded) = [] ++ 1 :: [2; 3] /\
  (forall o, In o [] -> gridName o <> objNameOf sender) /\
  gridName 1 = objNameOf sender /\
  gridDelete 1 world0 = (true, mkGridWorld true [2; 3] []) /\
  gridDelete 1 deadWorld = (true, mkGridWorld false [] []) /\
  engine (self loaded) = Some tt /\
  layout (self loaded) <> Some [] /\
  (exists st',
      OnDelete sender loaded = Ok st' /\
      objs (self st') = [2; 3] /\
      calls st' = calls loaded ++ [CallDelete 1; CallOnRefresh; CallRefresh])
  /\
  (exists st',
      OnDelete sender gone = Ok st' /\
      objs (self st') = [2; 3] /\
      layout (self st') = Some [QLabel (destroyedMsg "scene")]).
Proof.
  intros sender.
  assert (Hpre : forall o, In o [] -> gridName o <> objNameOf sender)
    by (intros o []).
  assert (Hl : layout (self loaded) <> Some []) by discriminate.
  split; [reflexivity|]. split; [exact Hpre|]. split; [reflexivity|].
  split; [reflexivity|]. split; [reflexivity|]. split; [reflexivity|].
  split; [exact Hl|].
  split.
  - assert (Hdel : Delete (members (self loaded)) 1 (world loaded)
                   = (true, mkGridWorld true [2; 3] [])) by reflexivity.
    assert (Hsc : SceneByName (mkGridWorld true [2; 3] []) tt
                              (sceneName (self loaded)) = Some tt)
      by reflexivity.
    destruct (proj1 (OnDelete_accepted_result sender loaded [] 1 [2; 3]
                       (mkGridWorld true [2; 3] []) tt
                       eq_refl Hpre eq_refl Hdel eq_refl Hl)
                    tt Hsc)
      as (st' & Hrun & Hobjs & _ & Hcalls).
    exists st'. split; [exact Hrun|]. split; [exact Hobjs | exact Hcalls].
  - assert (Hdel : Delete (members (self gone)) 1 (world gone)
                   = (true, mkGridWorld false [] [])) by reflexivity.
    assert (Hsc : SceneByName (mkGridWorld false [] []) tt
                              (sceneName (self gone)) = None)
      by reflexivity.
    destruct (proj2 (OnDelete_accepted_result sender gone [] 1 [2; 3]
                       (mkGridWorld false [] []) tt
                       eq_refl Hpre eq_refl Hdel eq_refl Hl)
                    Hsc)
      as (st' & Hrun & Hobjs & Hlayout & _).
    exists st'. split; [exact Hrun|]. split; [exact Hobjs | exact Hlayout].
Defined.

Lemma click_delete_button_unique_names_witness :
  NoDup (map gridName (objs (self twoGrids))) /\
  In 3 (objs (self twoGrids)) /\
  click (deleteButtonFor "grid" 3) twoGrids
  = OnRefresh (mkState (set_objs [1] loadedPlugin)
                       (mkGridWorld true [1; 2] [])
                       [CallDelete 3]).
Proof.
  assert (Hnodup : NoDup (map gridName (objs (self twoGrids)))).
  { cbn. repeat constructor; cbn.
    - intros [H|[]]; discriminate.
    - intros []. }
  assert (Hin : In 3 (objs (self twoGrids))) by (cbn; auto).
  split; [exact Hnodup|]. split; [exact Hin|].
  pose proof (click_delete_button_unique_names "grid" 3 twoGrids Hnodup Hin)
    as Hclick.
  vm_compute in Hclick. vm_compute. exact Hclick.
Defined.

Lemma click_delete_button_shared_name_witness :
  objs (self swapped) = [] ++ 3 :: [2] /\
  (forall o, In o [] -> gridName o <> gridName 2) /\
  gridName 3 = gridName 2 /\
  In 2 [2] /\
  3 <> 2 /\
  gridDelete 3 world0 = (true, mkGridWorld true [1; 2] []) /\
  click (deleteButtonFor "grid" 2) swapped
  = OnRefresh (mkState (set_objs [2] loadedPlugin)
                       (mkGridWorld true [1; 2] [])
                       [CallDelete 3]).
Proof.
  assert (Hpre : forall o, In o [] -> gridName o <> gridName 2)
    by (intros o []).
  assert (Hin : In 2 [2]) by (cbn; auto).
  assert (Hneq : 3 <> 2) by discriminate.
  split; [reflexivity|]. split; [exact Hpre|]. split; [reflexivity|].
  split; [exact Hin|]. split; [exact Hneq|]. split; [reflexivity|].
  pose proof (proj1 (click_delete_button_shared_name
                       "grid" [] 3 [2] 2 (mkGridWorld true [1; 2] [])
                       swapped eq_refl Hpre eq_refl Hin Hneq eq_refl))
    as Hclick.
  vm_compute in Hclick. vm_compute. exact Hclick.
Defined.

Lemma OnAdd_destroyed_scene_witness :
  engine (self gone) = Some tt /\
  layout (self gone) <> Some [] /\
  SceneByName (gridAdd deadWorld) tt (sceneName (self gone)) = None /\
  exists st',
    OnAdd gone = Ok st' /\
    world st' = gridAdd deadWorld /\
    calls st' = [CallAdd; CallOnRefresh] /\
    objs (self st') = [1; 2; 3].
Proof.
  assert (Hl : layout (self gone) <> Some []) by discriminate.
  split; [reflexivity|]. split; [exact Hl|]. split; [reflexivity|].
  pose proof (OnAdd_destroyed_scene gone tt) as Hadd. cbv zeta in Hadd.
  destruct (Hadd eq_refl Hl eq_refl)
    as (st' & Hrun & Hworld & Hcalls & _ & Hobjs).
  exists st'. split; [exact Hrun|]. split; [exact Hworld|].
  split; [exact Hcalls | exact Hobjs].
Defined.

Lemma AppendObj_keeps_rows_in_step_witness :
  rowTitles (buttonsWidgetFor "grid"
               :: map (rowFor "grid") (gridRefresh world0)
               ++ [SpacerWidget])
  = map gridName (objs (self loaded)) /\
  (exists st' l',
      @AppendObjs rendering gui [(4, ["pose"])] loaded = Ok st' /\
      objs (self st') = [1; 2; 3; 4] /\
      layout (self st') = Some l' /\
      rowTitles l' = map gridName (objs (self st'))) /\
  layout (self (start false world0)) = None /\
  AppendObj 4 ["pose"] (start false world0) = Fault NullLayout.
Proof.
  assert (Hstep : rowTitles (buttonsWidgetFor "grid"
                               :: map (rowFor "grid") (gridRefresh world0)
                               ++ [SpacerWidget])
                  = map gridName (objs (self loaded))) by reflexivity.
  split; [exact Hstep|]. split.
  - destruct (proj1 (@AppendObj_keeps_rows_in_step rendering gui
                       [(4, ["pose"])] loaded)
                    _ eq_refl Hstep)
      as (st' & l' & Hrun & Hobjs & Hlayout & Hrows & _).
    exists st', l'. split; [exact Hrun|]. split; [exact Hobjs|].
    split; [exact Hlayout | exact Hrows].
  - split; [reflexivity|].
    exact (proj1 (proj2 (@AppendObj_keeps_rows_in_step rendering gui []
                                                       (start false world0))
                        eq_refl 4 ["pose"])).
Defined.

(** ** Where the outcome differs from what a reader may expect *)

(** Counterexample to C1 as worded.  [Delete] answers true and the
    object is still on the list, or nothing is rebuilt.  With a derived plugin whose [Delete] accepts and
    leaves the scene alone, the refresh finds visual 1 again: the list
    holds it after the delete as before.  With the scene lost, visual 1
    is deleted and erased, but [Refresh] is not called and the layout
    gets no row. *)
Lemma OnDelete_accepted_still_listed :
  let sender := mkQObject "deleteButton" (Some "grid1") in
  objs (self loaded) = [1; 2; 3] /\
  gridName 1 = objNameOf sender /\
  @Delete rendering gui lazyHooks (members (self loaded)) 1 world0
  = (true, world0) /\
  (exists st',
      @OnDelete rendering gui lazyHooks sender loaded = Ok st' /\
      objs (self st') = [1; 2; 3] /\
      In 1 (objs (self st')) /\
      objs (self st') <> remove Nat.eq_dec 1 (objs (self loaded))) /\
  gridDelete 1 destroyedWorld = (true, mkGridWorld false [2; 3] []) /\
  (exists st',
      OnDelete sender sceneLost = Ok st' /\
      calls st' = [CallDelete 1; CallOnRefresh] /\
      ~ In CallRefresh (calls st') /\
      layout (self st') = Some [QLabel (destroyedMsg "scene")] /\
      rowTitles [QLabel (destroyedMsg "scene")] = []).
Proof.
  intros sender.
  split; [reflexivity|]. split; [reflexivity|]. split; [reflexivity|].
  split.
  - destruct (@OnDelete rendering gui lazyHooks sender loaded)
      as [st'| |] eqn:Hrun; vm_compute in Hrun; try discriminate Hrun.
    injection Hrun as <-.
    eexists. split; [reflexivity|]. cbn.
    split; [reflexivity|]. split; [now left | discriminate].
  - split; [reflexivity|].
    destruct (OnDelete sender sceneLost)
      as [st'| |] eqn:Hrun; vm_compute in Hrun; try discriminate Hrun.
    injection Hrun as <-.
    eexists. split; [reflexivity|]. cbn.
    split; [reflexivity|]. split; [|split; reflexivity].
    intros [H|[H|[]]]; discriminate.
Qed.

(** Counterexample to C4 as worded.  An [<engine>] child without text: [GetText()] is null, the
    string built from it faults, and no engine name is looked up.  The
    same happens when the names are there and a [<color>] of an
    [<insert>] has no text: the names are read and never used. *)
Lemma LoadConfig_engine_without_text :
  FirstChildElement "engine" noText = Some (Element "engine" []) /\
  GetText (Element "engine" []) = None /\
  LoadConfig_configuration (Some noText) (newPlugin false)
  = Fault NullText /\
  LoadConfig (Some noText) (start false world0) = Fault NullText /\
  (forall st', LoadConfig (Some noText) (start false world0) <> Ok st') /\
  FirstChildElement "engine" colorWithoutText
  = Some (Element "engine" [XMLText "ogre"]) /\
  LoadConfig (Some colorWithoutText) (start false world0) = Fault NullText /\
  (forall st',
      LoadConfig (Some colorWithoutText) (start false world0) <> Ok st').
Proof.
  repeat split; try reflexivity; intros st'; discriminate.
Qed.

(** Counterexample to C5 as worded.  An [<insert>] whose [<pose>] has no
    text: there is one
    [<insert>] child and no object to insert at all, [GetText()] being
    null. *)
Lemma LoadConfig_pose_without_text :
  length (insertElements (Children poseWithoutText)) = 1%nat /\
  LoadConfig_inserts (Children poseWithoutText) [] = Fault NullText /\
  LoadConfig_configuration (Some poseWithoutText) (newPlugin false)
  = Fault NullText /\
  (forall r,
      LoadConfig_configuration (Some poseWithoutText) (newPlugin false)
      <> Ok r) /\
  LoadConfig (Some poseWithoutText) (start false world0) = Fault NullText.
Proof.
  repeat split; try reflexivity; intros r; discriminate.
Qed.

(** Counterexample to C6 as worded.  A click on the add button once the
    scene is lost: [Add] runs
    and makes visual 4, the refresh slot is entered, but [Refresh] is not
    called, the list is the old one, without visual 4, and the layout
    holds the message and no row. *)
Lemma OnAdd_scene_lost_no_rebuild :
  In (addButtonFor "grid")
     match layout (self sceneLost) with
     | Some (ButtonsWidget buttons :: _) => buttons
     | _ => []
     end /\
  exists st',
    click (addButtonFor "grid") sceneLost = Ok st' /\
    calls st' = [CallAdd; CallOnRefresh] /\
    visuals (world st') = [1; 2; 3; 4] /\
    objs (self st') = [1; 2; 3] /\
    ~ In 4 (objs (self st')) /\
    layout (self st') = Some [QLabel (destroyedMsg "scene")].
Proof.
  split; [cbn; auto|].
  destruct (click (addButtonFor "grid") sceneLost)
    as [st'| |] eqn:Hrun; vm_compute in Hrun; try discriminate Hrun.
  injection Hrun as <-.
  eexists. split; [reflexivity|]. cbn.
  split; [reflexivity|]. split; [reflexivity|]. split; [reflexivity|].
  split; [|reflexivity].
  intros [H|[H|[H|[]]]]; discriminate.
Qed.
